(** * Task access and lifecycle policy of the attendance application

    A shallow embedding of the Express router for [/api/tasks]
    (routes/tasks.js): the list, read, create, update, comment,
    time-tracking and delete handlers and the table of its GET routes,
    and of two parts of the client, the password meter and form of the
    settings page and the theme provider, followed by the properties
    the specification states about them and further properties of the
    code.

    Conventions.
    - A Mongo document is a finite map from field names to JSON-like
      values; a collection is a finite map from [_id] to documents.
    - A handler is a function from the store (and the request) to an
      outcome and the store after the request.  The [try/catch] around
      every handler body turns any exception into [ServerError].
    - express-validator, the [Date] parser, the regular-expression
      compiler and the Mongoose schema of [Task] are collaborators of the
      router; they are the fields of the class [Collaborators].
    - A JavaScript string is held as its UTF-8 bytes.
    - A number of the request arithmetic is a double: [NaN], an
      infinity, or the rational a finite double denotes, every
      operation rounding to the nearest double.  Time values are
      integers of milliseconds. *)

From Stdlib Require Import QArith Qround Qabs Ascii String.
From stdpp Require Import gmap strings list.

Set Warnings "-register-all".
Local Open Scope Z_scope.

(** ** JavaScript primitives used by the router *)

Module JS.

(** A JavaScript number: [NaN], an infinity, or a finite double, held
    as the rational it denotes in lowest terms.  The sign of zero is
    not represented. *)
Inductive number :=
| NaN
| Num (q : Q)
| Infinity (negative : bool).

Definition Int (z : Z) : number := Num (inject_Z z).

(** The integer nearest to [q], a tie going to the even neighbour. *)
Definition nearest_even (q : Q) : Z :=
  let f := Qfloor q in
  match (q - inject_Z f ?= 1 # 2)%Q with
  | Lt => f
  | Gt => f + 1
  | Eq => if Z.even f then f else f + 1
  end.

(** The [e] with [2 ^ e <= a < 2 ^ (e + 1)], for a positive [a]. *)
Definition ilog2 (a : Q) : Z :=
  let k := Z.log2 (Qnum a) - Z.log2 (Zpos (Qden a)) in
  if Qle_bool (2 ^ k) a then k else k - 1.

(** The double nearest to [q]: 53 bits of precision, ties to even,
    gradual underflow below [2 ^ -1022], overflow to an infinity from
    [2 ^ 1024 - 2 ^ 970] on. *)
Definition round64 (q : Q) : number :=
  match (q ?= 0)%Q with
  | Eq => Num 0
  | sign =>
      let a := Qabs q in
      let e := Z.max (ilog2 a) (-1022) in
      let ulp := (2 ^ (e - 52))%Q in
      let v := (inject_Z (nearest_even (a / ulp)) * ulp)%Q in
      let negative := match sign with Lt => true | _ => false end in
      if Qle_bool (2 ^ 1024) v then Infinity negative
      else Num (Qred (if negative then - v else v))
  end.

(** [a - b] *)
Definition sub (a b : number) : number :=
  match a, b with
  | Num x, Num y => round64 (x - y)
  | Infinity s, Num _ => Infinity s
  | Num _, Infinity s => Infinity (negb s)
  | Infinity s, Infinity t => if Bool.eqb s t then NaN else Infinity s
  | _, _ => NaN
  end.

(** [a * b] *)
Definition mul (a b : number) : number :=
  match a, b with
  | Num x, Num y => round64 (x * y)
  | Infinity s, Num y | Num y, Infinity s =>
      match (y ?= 0)%Q with
      | Eq => NaN
      | Lt => Infinity (negb s)
      | Gt => Infinity s
      end
  | Infinity s, Infinity t => Infinity (xorb s t)
  | _, _ => NaN
  end.

(** Truthiness of a query parameter: [undefined] and the empty string
    are falsy. *)
Definition truthy (p : option string) : bool :=
  match p with
  | Some (String _ _) => true
  | _ => false
  end.

(** [arr.includes(x)] on an array of strings. *)
Definition includes (arr : list string) (x : string) : bool :=
  existsb (String.eqb x) arr.

(** [s.includes(c)] for a one-character needle. *)
Fixpoint str_includes (c : ascii) (s : string) : bool :=
  match s with
  | EmptyString => false
  | String a r => if Ascii.eqb a c then true else str_includes c r
  end.

(** [s.split(c)] for a one-character separator. *)
Fixpoint split (c : ascii) (s : string) : list string :=
  match s with
  | EmptyString => [EmptyString]
  | String a r =>
      if Ascii.eqb a c then EmptyString :: split c r
      else match split c r with
           | h :: t => String a h :: t
           | [] => [String a EmptyString]
           end
  end.

(** The number of bytes of the white-space or line-terminator character
    at the head of [s], 0 when there is none: the six ASCII ones, and
    U+00A0, U+1680, U+2000 to U+200A, U+2028, U+2029, U+202F, U+205F,
    U+3000 and U+FEFF in UTF-8. *)
Definition white_head (s : string) : nat :=
  match s with
  | String a r =>
      if Ascii.is_space a then 1%nat
      else
        match N_of_ascii a, r with
        | 194%N, String b _ => if N.eqb (N_of_ascii b) 160 then 2%nat else 0%nat
        | 225%N, String b (String d _) =>
            if N.eqb (N_of_ascii b) 154 && N.eqb (N_of_ascii d) 128 then 3%nat else 0%nat
        | 226%N, String b (String d _) =>
            let n := N_of_ascii d in
            if N.eqb (N_of_ascii b) 128
               && ((N.leb 128 n && N.leb n 138) || N.eqb n 168 || N.eqb n 169 || N.eqb n 175)
            then 3%nat
            else if N.eqb (N_of_ascii b) 129 && N.eqb n 159 then 3%nat
            else 0%nat
        | 227%N, String b (String d _) =>
            if N.eqb (N_of_ascii b) 128 && N.eqb (N_of_ascii d) 128 then 3%nat else 0%nat
        | 239%N, String b (String d _) =>
            if N.eqb (N_of_ascii b) 187 && N.eqb (N_of_ascii d) 191 then 3%nat else 0%nat
        | _, _ => 0%nat
        end
  | EmptyString => 0%nat
  end.

(** The same for the character at the end of a string, read on the
    reversed string. *)
Definition white_last (s : string) : nat :=
  match s with
  | String a (String b (String d _)) =>
      let w3 := white_head (String d (String b (String a EmptyString))) in
      let w2 := white_head (String b (String a EmptyString)) in
      let w1 := white_head (String a EmptyString) in
      if Nat.eqb w3 3 then 3%nat else if Nat.eqb w2 2 then 2%nat else w1
  | String a (String b EmptyString) =>
      let w2 := white_head (String b (String a EmptyString)) in
      if Nat.eqb w2 2 then 2%nat else white_head (String a EmptyString)
  | String a EmptyString => white_head (String a EmptyString)
  | EmptyString => 0%nat
  end.

Fixpoint drop_bytes (n : nat) (s : string) : string :=
  match n, s with
  | S m, String _ r => drop_bytes m r
  | _, _ => s
  end.

(** Strip the characters that [width] finds at the head, one after the
    other. *)
Fixpoint strip (width : string -> nat) (fuel : nat) (s : string) : string :=
  match fuel with
  | O => s
  | S f =>
      match width s with
      | O => s
      | n => strip width f (drop_bytes n s)
      end
  end.

(** [s.trimStart()], [s.trimEnd()] and [s.trim()] *)
Definition trimStart (s : string) : string := strip white_head (String.length s) s.

Definition trimEnd (s : string) : string :=
  String.rev (strip white_last (String.length s) (String.rev s)).

Definition trim (s : string) : string := trimEnd (trimStart s).

Definition digit (radix : Z) (a : ascii) : option Z :=
  let n := Z.of_N (N_of_ascii a) in
  let v := if (48 <=? n) && (n <=? 57) then Some (n - 48)
           else if (97 <=? n) && (n <=? 122) then Some (n - 87)
           else if (65 <=? n) && (n <=? 90) then Some (n - 55)
           else None in
  match v with
  | Some d => if d <? radix then Some d else None
  | None => None
  end.

(** Longest prefix of digits of [s], read in [radix]; [None] when the
    prefix is empty.  The second component is the unread rest. *)
Fixpoint digits_prefix (radix : Z) (acc : option Z) (s : string) : option Z * string :=
  match s with
  | String a r =>
      match digit radix a with
      | Some d => digits_prefix radix (Some (from_option id 0 acc * radix + d)) r
      | None => (acc, s)
      end
  | EmptyString => (acc, s)
  end.

Definition strip_sign (s : string) : Z * string :=
  match s with
  | String "-" r => (-1, r)
  | String "+" r => (1, r)
  | _ => (1, s)
  end.

Definition strip_hex (s : string) : option string :=
  match s with
  | String "0" (String "x" r) | String "0" (String "X" r) => Some r
  | _ => None
  end.

(** [parseInt(s)] with no radix argument: the integer spelled by the
    longest prefix of digits after white space, a sign and a hex
    prefix, as a double. *)
Definition parseInt (s : string) : number :=
  let '(sign, r) := strip_sign (trimStart s) in
  let '(radix, r) := match strip_hex r with Some r' => (16, r') | None => (10, r) end in
  match fst (digits_prefix radix None r) with
  | Some n => round64 (inject_Z (sign * n))
  | None => NaN
  end.

(** The integer spelled by [s] when it is all digits of [radix]. *)
Definition all_digits (radix : Z) (s : string) : option Z :=
  match digits_prefix radix None s with
  | (Some n, EmptyString) => Some n
  | _ => None
  end.

(** The [0x], [0o] and [0b] literals. *)
Definition radix_literal (s : string) : option Z :=
  match s with
  | String "0" (String "x" r) | String "0" (String "X" r) => all_digits 16 r
  | String "0" (String "o" r) | String "0" (String "O" r) => all_digits 8 r
  | String "0" (String "b" r) | String "0" (String "B" r) => all_digits 2 r
  | _ => None
  end.

(** An unsigned decimal literal: digits, an optional point and
    fraction digits (digits on at least one side of the point), an
    optional exponent; its exact value. *)
Definition decimal_literal (s : string) : option Q :=
  let '(int_part, r1) := digits_prefix 10 None s in
  let '(frac_part, frac_len, r2) :=
    match r1 with
    | String "." r =>
        let '(f, r') := digits_prefix 10 None r in
        (f, Z.of_nat (String.length r - String.length r'), r')
    | _ => (None, 0, r1)
    end in
  let exponent :=
    match r2 with
    | EmptyString => Some 0
    | String "e" r | String "E" r =>
        let '(sign, r') := strip_sign r in
        match all_digits 10 r' with
        | Some n => Some (sign * n)
        | None => None
        end
    | _ => None
    end in
  match int_part, frac_part, exponent with
  | None, None, _ | _, _, None => None
  | _, _, Some e =>
      let i := from_option id 0 int_part in
      let f := from_option id 0 frac_part in
      Some ((inject_Z i + inject_Z f / 10 ^ frac_len) * 10 ^ e)%Q
  end.

(** [Number(s)]: the value of a string as a numeric literal between
    white space; the empty string is 0, what is no literal is [NaN]. *)
Definition StringToNumber (s : string) : number :=
  let t := trim s in
  match t with
  | EmptyString => Int 0
  | String "0" (String c _) =>
      if existsb (Ascii.eqb c) ["x"; "X"; "o"; "O"; "b"; "B"]%char
      then match radix_literal t with
           | Some n => round64 (inject_Z n)
           | None => NaN
           end
      else match decimal_literal t with
           | Some q => round64 q
           | None => NaN
           end
  | _ =>
      let '(sign, r) := strip_sign t in
      if String.eqb r "Infinity" then Infinity (sign <? 0)
      else match decimal_literal r with
           | Some q => round64 (inject_Z sign * q)
           | None => NaN
           end
  end.

(** [Math.round(n / d)] for integers [n] and [d > 0]: the nearest
    integer, halves rounded towards plus infinity. *)
Definition round_div (n d : Z) : Z := (2 * n + d) / (2 * d).

End JS.

(** ** Documents, collections and outcomes *)

Inductive value :=
| VNull
| VBool (b : bool)
| VNum (q : Q)
| VNaN
| VStr (s : string)
| VDate (ms : Z)
| VArr (l : list value)
| VObj (l : list (string * value)).

Abbreviation doc := (gmap string value).

Record user_doc := {
  name : string;
  email : string;
  user_role : string;
  department : string;
  assignedTasks : list string
}.

Record store := {
  tasks : gmap string doc;
  users : gmap string user_doc
}.

(** The authenticated caller, [req.user]. *)
Record caller := { caller_id : string; role : string }.

(** What a handler answers: [Success] for 200 and 201, then 400, 404,
    403 and 500. *)
Inductive outcome (A : Type) :=
| Success (a : A)
| ValidationFailed
| NotFound
| AccessDenied
| ServerError.
Arguments Success {A} a.
Arguments ValidationFailed {A}.
Arguments NotFound {A}.
Arguments AccessDenied {A}.
Arguments ServerError {A}.

(** The collaborators of the router whose code is not part of it. *)
Class Collaborators := {
  (** express-validator checks on a body field ([None]: absent). *)
  notEmpty : option value -> bool;
  isMongoId : option value -> bool;
  isISO8601 : option value -> bool;
  isIn : list string -> option value -> bool;
  optionalString : option value -> bool;
  (** [new Date(v)]: the time value in milliseconds, [None] for an
      Invalid Date. *)
  Date_new : option value -> option Z;
  (** Whether [new RegExp(s, 'i')] returns rather than throws. *)
  RegExp_valid : string -> bool;
  (** The defaults of the Task schema, and its validation of a whole
      document ([save]) and of an update ([runValidators]). *)
  Task_defaults : doc;
  Task_validate : doc -> bool;
  Task_validate_update : doc -> bool
}.

Definition isAdminOrHR (c : caller) : bool := JS.includes ["admin"; "hr"] (role c).

(** ** GET /api/tasks *)

Module Query.
(** [req.query], each parameter given at most once, as a string. *)
Record t := {
  assignedTo : option string;
  status : option string;
  priority : option string;
  category : option string;
  search : option string;
  page : option string;
  limit : option string;
  sortBy : option string;
  sortOrder : option string
}.

Definition empty : t :=
  {| assignedTo := None; status := None; priority := None; category := None;
     search := None; page := None; limit := None; sortBy := None; sortOrder := None |}.

(** The same request with another (or no) assignee filter. *)
Definition with_assignedTo (a : option string) (q : t) : t :=
  {| assignedTo := a; status := status q; priority := priority q;
     category := category q; search := search q; page := page q;
     limit := limit q; sortBy := sortBy q; sortOrder := sortOrder q |}.
End Query.

Inductive status_cond :=
| StatusIs (s : string)
| StatusIn (l : list string).

(** The Mongo predicate [query] handed to [Task.find]. *)
Record task_query := {
  q_assignedTo : string;
  q_status : option status_cond;
  q_priority : option string;
  q_category : option string;
  q_or : option string
}.

Record list_plan := {
  find : task_query;
  sort : string * JS.number;
  skip : JS.number;
  find_limit : JS.number;
  currentPage : JS.number
}.

(** Lines 28 to 37: the [assignedTo] component of the predicate. *)
Definition visible_assignee (c : caller) (assignedTo : option string) : string :=
  if negb (JS.includes ["admin"; "hr"] (role c)) then caller_id c
  else if JS.truthy assignedTo then default (caller_id c) assignedTo
  else caller_id c.

Definition wanted (p : option string) : bool :=
  JS.truthy p && negb (String.eqb (default "" p) "all").


Definition status_filter (status : option string) : option status_cond :=
  if wanted status then
    let s := default "" status in
    if JS.str_includes "," s then Some (StatusIn (JS.trim <$> JS.split "," s))
    else Some (StatusIs s)
  else None.

Definition plain_filter (p : option string) : option string :=
  if wanted p then p else None.

(** A destructured query parameter with a numeric default, read as a
    number ([Number(x)]) and through [parseInt(x)]. *)
Definition to_number (dflt : Z) (p : option string) : JS.number :=
  match p with
  | None => JS.Int dflt
  | Some s => JS.StringToNumber s
  end.

Definition parse_int (dflt : Z) (p : option string) : JS.number :=
  match p with
  | None => JS.Int dflt
  | Some s => JS.parseInt s
  end.

Section ListTasks.
Context `{Collaborators}.

(** The handler up to the database calls: the predicate, the sort
    and the window it asks [Task.find] for, and the page it reports.
    [Success plan] says that the handler reached [Task.find] with
    [plan]; what the driver answers to that query is not part of the
    router. *)
Definition list_tasks (c : caller) (q : Query.t) : outcome list_plan :=
  let query_or := if JS.truthy (Query.search q) then Query.search q else None in
  if JS.truthy (Query.search q) && negb (RegExp_valid (default "" (Query.search q)))
  then ServerError
  else
    let page := to_number 1 (Query.page q) in
    let limit := to_number 10 (Query.limit q) in
    Success
      {| find := {| q_assignedTo := visible_assignee c (Query.assignedTo q);
                    q_status := status_filter (Query.status q);
                    q_priority := plain_filter (Query.priority q);
                    q_category := plain_filter (Query.category q);
                    q_or := query_or |};
         sort := (default "createdAt" (Query.sortBy q), parse_int (-1) (Query.sortOrder q));
         skip := JS.mul (JS.sub page (JS.Int 1)) limit;
         find_limit := parse_int 10 (Query.limit q);
         currentPage := parse_int 1 (Query.page q) |}.
End ListTasks.

(** ** Helpers shared by the single-task handlers *)

(** Modelled from the spec: the [authorize(...roles)] middleware of
    middleware/auth.js, whose code is not part of the router.  Sections
    4.3, 4.7 and 4.8 let only callers with one of the listed roles
    through, and section 7 names the refusal AccessDenied.  The router
    mounts it in front of the handler, so it runs first. *)
Definition authorize (roles : list string) (c : caller) : bool :=
  JS.includes roles (role c).

(** [ref.toString()] of a stored reference; [None] when the field does
    not hold one, where the call throws. *)
Definition ref_string (v : option value) : option string :=
  match v with
  | Some (VStr s) => Some s
  | _ => None
  end.

(** [populate('assignedTo')] followed by [task.assignedTo._id.toString()]:
    a reference to a user that is gone populates to [null]. *)
Definition populated_assignee (st : store) (task : doc) : option string :=
  match ref_string (task !! "assignedTo") with
  | Some a => if decide (is_Some (users st !! a)) then Some a else None
  | None => None
  end.

(** A Mongoose array path reads as the empty array when unset. *)
Definition array_field (k : string) (d : doc) : list value :=
  match d !! k with
  | Some (VArr l) => l
  | _ => []
  end.

(** A property of an object literal; an [undefined] value leaves no
    trace in the stored sub-document. *)
Definition prop (k : string) (v : option value) : list (string * value) :=
  match v with
  | Some x => [(k, x)]
  | None => []
  end.

Definition with_tasks (st : store) (ts : gmap string doc) : store :=
  {| tasks := ts; users := users st |}.

Definition Object_keys (o : doc) : list string := (map_to_list o).*1.

(** ** The calendar day of a time value: [toISOString().split('T')[0]] *)

Module Calendar.
Definition msPerDay : Z := 86400000.

(** Year, month and day of the proleptic Gregorian calendar for a day
    number counted from 1970-01-01. *)
Definition civil (day : Z) : Z * Z * Z :=
  let z := day + 719468 in
  let era := z / 146097 in
  let doe := z - era * 146097 in
  let yoe := (doe - doe / 1460 + doe / 36524 - doe / 146096) / 365 in
  let doy := doe - (365 * yoe + yoe / 4 - yoe / 100) in
  let mp := (5 * doy + 2) / 153 in
  let d := doy - (153 * mp + 2) / 5 + 1 in
  let m := if mp <? 10 then mp + 3 else mp - 9 in
  let y := yoe + era * 400 + (if m <=? 2 then 1 else 0) in
  (y, m, d).

(** The converse: the day number of a date of that calendar. *)
Definition days_from_civil (y m d : Z) : Z :=
  let y' := if m <=? 2 then y - 1 else y in
  let era := y' / 400 in
  let yoe := y' - era * 400 in
  let doy := (153 * (if 2 <? m then m - 3 else m + 9) + 2) / 5 + d - 1 in
  let doe := yoe * 365 + yoe / 4 - yoe / 100 + doy in
  era * 146097 + doe - 719468.

Fixpoint digits (width : nat) (n : Z) (acc : string) : string :=
  match width with
  | O => acc
  | S w => digits w (n / 10) (String (ascii_of_N (Z.to_N (48 + n mod 10))) acc)
  end.

(** Years 0 to 9999 print on four digits, the others signed on six. *)
Definition year_string (y : Z) : string :=
  if (0 <=? y) && (y <=? 9999) then digits 4 y ""
  else if y <? 0 then String "-" (digits 6 (- y) "")
  else String "+" (digits 6 y "").

Definition iso_date (ms : Z) : string :=
  let '(y, m, d) := civil (ms / msPerDay) in
  year_string y +:+ "-" +:+ digits 2 m "" +:+ "-" +:+ digits 2 d "".
End Calendar.

(** ** PUT /api/tasks/:id, the field policy *)

Definition allowedUpdates (isAdminOrHR : bool) : list string :=
  if isAdminOrHR
  then ["title"; "description"; "priority"; "assignedTo"; "dueDate"; "estimatedHours";
        "category"; "tags"; "status"; "progress"; "dependencies"; "completionReason"]
  else ["status"; "progress"; "actualHours"; "completionReason"].

(** The [forEach] over [Object.keys(req.body)] that fills [updates]. *)
Definition collect_updates (allowed : list string) (body : doc) : doc :=
  foldl (fun updates key =>
           if JS.includes allowed key
           then match body !! key with
                | Some v => <[key := v]> updates
                | None => updates
                end
           else updates)
        ∅ (Object_keys body).

Definition sets_completed (updates : doc) : bool :=
  match updates !! "status" with
  | Some (VStr s) => String.eqb s "completed"
  | _ => false
  end.

(** The special handling of a status update; [now] is [new Date()]. *)
Definition completion (now : Z) (updates : doc) : doc :=
  if sets_completed updates
  then <["progress" := VNum 100]> (<["completedAt" := VDate now]> updates)
  else updates.

(** ** The handlers that address one task *)

Section Handlers.
Context `{Collaborators}.

(** GET /api/tasks/:id *)
Definition get_task (c : caller) (id : string) (st : store) : outcome doc :=
  match tasks st !! id with
  | None => NotFound
  | Some task =>
      if negb (JS.includes ["admin"; "hr"] (role c)) then
        match populated_assignee st task with
        | None => ServerError
        | Some a =>
            if negb (String.eqb a (caller_id c)) then AccessDenied else Success task
        end
      else Success task
  end.

(** The fields the creation handler destructures from [req.body]. *)
Definition created_fields : list string :=
  ["title"; "description"; "priority"; "assignedTo"; "dueDate"; "estimatedHours";
   "category"; "tags"; "dependencies"; "isRecurring"; "recurringPattern"].

Definition create_valid (body : doc) : bool :=
  notEmpty (body !! "title")
  && notEmpty (body !! "description")
  && isMongoId (body !! "assignedTo")
  && isISO8601 (body !! "dueDate")
  && isIn ["low"; "medium"; "high"; "urgent"] (body !! "priority")
  && isIn ["development"; "design"; "testing"; "documentation"; "meeting";
           "research"; "other"] (body !! "category").

(** [new Task({ ..., assignedBy: req.user.id, ... })] *)
Definition new_task (c : caller) (body : doc) : doc :=
  <["assignedBy" := VStr (caller_id c)]>
    (filter (fun kv => kv.1 ∈ created_fields) body) ∪ Task_defaults.

Definition push_assigned (task_id : string) (u : user_doc) : user_doc :=
  {| name := name u; email := email u; user_role := user_role u;
     department := department u; assignedTasks := assignedTasks u ++ [task_id] |}.

Definition pull_assigned (task_id : string) (u : user_doc) : user_doc :=
  {| name := name u; email := email u; user_role := user_role u;
     department := department u;
     assignedTasks := filter (fun t => t ≠ task_id) (assignedTasks u) |}.

(** POST /api/tasks; [new_id] is the [_id] Mongoose gives the new
    document. *)
Definition create_task (c : caller) (new_id : string) (body : doc) (st : store)
  : outcome doc * store :=
  if negb (authorize ["admin"; "hr"] c) then (AccessDenied, st)
  else if negb (create_valid body) then (ValidationFailed, st)
  else
    match body !! "assignedTo" with
    | None | Some VNull => (NotFound, st)
    | Some (VStr a) =>
        match users st !! a with
        | None => (NotFound, st)
        | Some _ =>
            let task := new_task c body in
            if Task_validate task then
              (Success task,
               {| tasks := <[new_id := task]> (tasks st);
                  users := alter (push_assigned new_id) a (users st) |})
            else (ServerError, st)
        end
    | Some _ => (ServerError, st)
    end.

(** [Task.findByIdAndUpdate(id, updates, { new: true, runValidators: true })]:
    the listed fields are set, the others stay. *)
Definition findByIdAndUpdate (id : string) (updates : doc) (st : store)
  : outcome (option doc) * store :=
  if Task_validate_update updates then
    match tasks st !! id with
    | Some task =>
        let task' := updates ∪ task in
        (Success (Some task'), with_tasks st (<[id := task']> (tasks st)))
    | None => (Success None, st)
    end
  else (ServerError, st).

(** PUT /api/tasks/:id *)
Definition update_task (now : Z) (c : caller) (id : string) (body : doc) (st : store)
  : outcome (option doc) * store :=
  match tasks st !! id with
  | None => (NotFound, st)
  | Some task =>
      let isAdminOrHR := JS.includes ["admin"; "hr"] (role c) in
      match ref_string (task !! "assignedTo") with
      | None => (ServerError, st)
      | Some a =>
          let isAssignedUser := String.eqb a (caller_id c) in
          if negb isAdminOrHR && negb isAssignedUser then (AccessDenied, st)
          else
            let updates := collect_updates (allowedUpdates isAdminOrHR) body in
            findByIdAndUpdate id (completion now updates) st
      end
  end.

(** [task.save()] of a task loaded from the store. *)
Definition save (id : string) (task : doc) (st : store) : option store :=
  if Task_validate task then Some (with_tasks st (<[id := task]> (tasks st))) else None.

(** POST /api/tasks/:id/comments *)
Definition add_comment (c : caller) (id : string) (body : doc) (st : store)
  : outcome (list value) * store :=
  if negb (notEmpty (body !! "comment")) then (ValidationFailed, st)
  else
    match tasks st !! id with
    | None => (NotFound, st)
    | Some task =>
        let isAdminOrHR := JS.includes ["admin"; "hr"] (role c) in
        match ref_string (task !! "assignedTo"), ref_string (task !! "assignedBy") with
        | Some a, Some b =>
            let isAssignedUser := String.eqb a (caller_id c) in
            let isTaskCreator := String.eqb b (caller_id c) in
            if negb isAdminOrHR && negb isAssignedUser && negb isTaskCreator
            then (AccessDenied, st)
            else
              let entry := VObj (("user", VStr (caller_id c)) :: prop "comment" (body !! "comment")) in
              let comments := array_field "comments" task ++ [entry] in
              match save id (<["comments" := VArr comments]> task) st with
              | Some st' => (Success comments, st')
              | None => (ServerError, st)
              end
        | _, _ => (ServerError, st)
        end
    end.

Definition time_valid (body : doc) : bool :=
  isISO8601 (body !! "startTime")
  && isISO8601 (body !! "endTime")
  && optionalString (body !! "description").

(** POST /api/tasks/:id/time-tracking *)
Definition add_time_tracking (c : caller) (id : string) (body : doc) (st : store)
  : outcome (list value) * store :=
  if negb (time_valid body) then (ValidationFailed, st)
  else
    match tasks st !! id with
    | None => (NotFound, st)
    | Some task =>
        match ref_string (task !! "assignedTo") with
        | None => (ServerError, st)
        | Some a =>
            if negb (String.eqb a (caller_id c)) then (AccessDenied, st)
            else
              match Date_new (body !! "startTime") with
              | None => (ServerError, st)
              | Some start =>
                  let '(end_v, duration_v, rejected) :=
                    match Date_new (body !! "endTime") with
                    | Some end_ =>
                        let duration := JS.round_div (end_ - start) 60000 in
                        (VDate end_, VNum (inject_Z duration), duration <=? 0)
                    | None => (VNaN, VNaN, false)
                    end in
                  let date := Calendar.iso_date start in
                  if rejected then (ValidationFailed, st)
                  else
                    let entry :=
                      VObj ([("startTime", VDate start); ("endTime", end_v);
                             ("duration", duration_v)]
                            ++ prop "description" (body !! "description")
                            ++ [("date", VStr date)]) in
                    let timeTracking := array_field "timeTracking" task ++ [entry] in
                    match save id (<["timeTracking" := VArr timeTracking]> task) st with
                    | Some st' => (Success timeTracking, st')
                    | None => (ServerError, st)
                    end
              end
        end
    end.

(** DELETE /api/tasks/:id *)
Definition delete_task (c : caller) (id : string) (st : store) : outcome unit * store :=
  if negb (authorize ["admin"] c) then (AccessDenied, st)
  else
    match tasks st !! id with
    | None => (NotFound, st)
    | Some task =>
        let users' :=
          match ref_string (task !! "assignedTo") with
          | Some a => alter (pull_assigned id) a (users st)
          | None => users st
          end in
        (Success tt, {| tasks := delete id (tasks st); users := users' |})
    end.
End Handlers.

(** ** The GET routes of the router *)

(** A segment of a route path: a literal or a parameter such as [:id]. *)
Inductive segment :=
| Lit (s : string)
| Param.

Inductive get_route :=
| ListTasks
| GetTask
| StatsOverview
| ByEmployee
| EmployeeSummary.

(** The routes in the order [router.get] registers them: lines 13, 97,
    458, 541 and 670. *)
Definition get_routes : list (list segment * get_route) :=
  [ ([], ListTasks);
    ([Param], GetTask);
    ([Lit "stats"; Lit "overview"], StatsOverview);
    ([Lit "by-employee"], ByEmployee);
    ([Lit "employee-summary"], EmployeeSummary) ].

Definition lower (a : ascii) : ascii :=
  let n := N_of_ascii a in
  if (N.leb 65 n && N.leb n 90)%bool then ascii_of_N (n + 32) else a.

Fixpoint lower_string (s : string) : string :=
  match s with
  | EmptyString => EmptyString
  | String a r => String (lower a) (lower_string r)
  end.

(** A request path, as its segments, against a route: the values of
    the parameters when it matches.  Literals match whatever the case
    of the letters, a parameter matches any one segment. *)
Fixpoint match_route (pattern : list segment) (path : list string) : option (list string) :=
  match pattern, path with
  | [], [] => Some []
  | Lit s :: pattern', x :: path' =>
      if String.eqb (lower_string s) (lower_string x) then match_route pattern' path'
      else None
  | Param :: pattern', x :: path' => cons x <$> match_route pattern' path'
  | _, _ => None
  end.

(** Express gives a request to the first route that matches it; every
    handler of this router answers and none passes the request on. *)
Fixpoint dispatch (routes : list (list segment * get_route)) (path : list string)
  : option (get_route * list string) :=
  match routes with
  | [] => None
  | (pattern, r) :: rest =>
      match match_route pattern path with
      | Some params => Some (r, params)
      | None => dispatch rest path
      end
  end.

(** ** A concrete set of collaborators and a small store

    Used to run the handlers on explicit requests.  The validators
    accept the plain well-formed cases, the date parser reads the
    UTC form [YYYY-MM-DDTHH:mm:ss.sssZ] that [toISOString] prints, and
    the schema gives new tasks status "pending" and progress 0 and
    refuses nothing. *)

Module Sample.

Definition nonempty_string (v : option value) : bool :=
  match v with
  | Some (VStr (String _ _)) => true
  | _ => false
  end.

Definition one_of (l : list string) (v : option value) : bool :=
  match v with
  | Some (VStr s) => JS.includes l s
  | _ => false
  end.

Definition string_or_absent (v : option value) : bool :=
  match v with
  | None | Some (VStr _) => true
  | _ => false
  end.

Definition field (s : string) (from len : nat) : option Z :=
  JS.all_digits 10 (substring from len s).

Definition parse_utc (s : string) : option Z :=
  if negb (String.eqb (substring 4 1 s ++ substring 7 1 s ++ substring 10 1 s
                       ++ substring 13 1 s ++ substring 16 1 s ++ substring 19 1 s
                       ++ substring 23 2 s) "--T::.Z")
  then None
  else
    y ← field s 0 4; m ← field s 5 2; d ← field s 8 2;
    hh ← field s 11 2; mm ← field s 14 2; ss ← field s 17 2; ms ← field s 20 3;
    Some (Calendar.days_from_civil y m d * Calendar.msPerDay
          + ((hh * 60 + mm) * 60 + ss) * 1000 + ms).

Definition parse_date (v : option value) : option Z :=
  match v with
  | Some (VStr s) => parse_utc s
  | _ => None
  end.

Definition collaborators : Collaborators :=
  {| notEmpty := nonempty_string;
     isMongoId := nonempty_string;
     isISO8601 v := bool_decide (is_Some (parse_date v));
     isIn := one_of;
     optionalString := string_or_absent;
     Date_new := parse_date;
     RegExp_valid _ := true;
     Task_defaults := {[ "status" := VStr "pending"; "progress" := VNum 0 ]};
     Task_validate _ := true;
     Task_validate_update _ := true |}.

Definition admin : caller := {| caller_id := "u-admin"; role := "admin" |}.
Definition hr : caller := {| caller_id := "u-hr"; role := "hr" |}.
Definition alice : caller := {| caller_id := "u-alice"; role := "employee" |}.
Definition bob : caller := {| caller_id := "u-bob"; role := "employee" |}.

Definition user (n r : string) (ts : list string) : user_doc :=
  {| name := n; email := n +:+ "@example.org"; user_role := r;
     department := "engineering"; assignedTasks := ts |}.

(** Alice has one pending task, Bob one completed task. *)
Definition task_a : doc :=
  {[ "title" := VStr "Write report"; "assignedTo" := VStr "u-alice";
     "assignedBy" := VStr "u-admin"; "status" := VStr "pending";
     "priority" := VStr "medium"; "progress" := VNum 0 ]}.

Definition task_b : doc :=
  {[ "title" := VStr "Fix login"; "assignedTo" := VStr "u-bob";
     "assignedBy" := VStr "u-hr"; "status" := VStr "completed";
     "priority" := VStr "high"; "progress" := VNum 100;
     "completedAt" := VDate 1704099600000 ]}.

Definition db : store :=
  {| tasks := {[ "t-a" := task_a; "t-b" := task_b ]};
     users := {[ "u-admin" := user "Admin" "admin" [];
                 "u-hr" := user "Hannah" "hr" [];
                 "u-alice" := user "Alice" "employee" ["t-a"];
                 "u-bob" := user "Bob" "employee" ["t-b"] ]} |}.

End Sample.

(** ** The back-references from users to their tasks *)

(** Every task whose assignee is a user of the store is listed in that
    user's [assignedTasks]. *)
Definition backrefs (st : store) : Prop :=
  forall id task a u,
    tasks st !! id = Some task ->
    ref_string (task !! "assignedTo") = Some a ->
    users st !! a = Some u ->
    id ∈ assignedTasks u.

(** A creation request for the sample store. *)
Definition sample_new_body : doc :=
  {[ "title" := VStr "Plan sprint"; "description" := VStr "Next two weeks";
     "assignedTo" := VStr "u-bob"; "dueDate" := VStr "2024-02-01T00:00:00.000Z";
     "priority" := VStr "low"; "category" := VStr "meeting" ]}.

(** ** The settings page: the password strength meter and the password form *)

Module Settings.

(** [s.length], the number of UTF-16 code units of the string whose
    UTF-8 bytes are [s]: a character of one to three bytes is one
    unit, a character of four bytes is two, and the bytes that continue
    a character count nothing. *)
Fixpoint utf16_length (s : string) : nat :=
  match s with
  | EmptyString => 0%nat
  | String a r =>
      let n := N_of_ascii a in
      ((if (n <? 128)%N then 1
        else if (n <? 192)%N then 0
        else if (n <? 240)%N then 1
        else 2) + utf16_length r)%nat
  end.

(** [/[...]/.test(s)] for a class of code units given on the ASCII
    range: some unit of [s] is in the class.  The bytes of a character
    outside ASCII are all above 127, as its code units are. *)
Fixpoint test (class : N -> bool) (s : string) : bool :=
  match s with
  | EmptyString => false
  | String a r => class (N_of_ascii a) || test class r
  end.

(** [[a-z]], [[A-Z]], [\d] and [[^a-zA-Z\d]] *)
Definition lower_case (n : N) : bool := ((97 <=? n) && (n <=? 122))%N.
Definition upper_case (n : N) : bool := ((65 <=? n) && (n <=? 90))%N.
Definition digit (n : N) : bool := ((48 <=? n) && (n <=? 57))%N.
Definition special (n : N) : bool := negb (lower_case n || upper_case n || digit n).

Record meter := { level : string; color : string; percentage : nat }.

Definition getPasswordStrength (password : string) : meter :=
  let strength := 0%nat in
  let strength := if (8 <=? utf16_length password)%nat then S strength else strength in
  let strength :=
    if test lower_case password && test upper_case password then S strength
    else strength in
  let strength := if test digit password then S strength else strength in
  let strength := if test special password then S strength else strength in
  let levels := ["Weak"; "Fair"; "Good"; "Strong"] in
  let colors := ["text-red-500"; "text-orange-500"; "text-yellow-500"; "text-green-500"] in
  {| level := default "Very Weak" (levels !! strength);
     color := default "text-red-500" (colors !! strength);
     percentage := Nat.min (strength * 25) 100 |}.

(** The class of the bar drawn under the label. *)
Definition bar (s : meter) : string :=
  if (75 <=? percentage s)%nat then "bg-green-500"
  else if (50 <=? percentage s)%nat then "bg-yellow-500"
  else if (25 <=? percentage s)%nat then "bg-orange-500"
  else "bg-red-500".

Record passwordData :=
  { currentPassword : string; newPassword : string; confirmPassword : string }.

(** What submitting the password form does: an error toast, or the
    call [updatePassword({ currentPassword, newPassword })]. *)
Inductive submission :=
| Refused (toast : string)
| Sent (current new : string).

Definition handlePasswordUpdate (d : passwordData) : submission :=
  if negb (String.eqb (newPassword d) (confirmPassword d))
  then Refused "New passwords do not match"
  else if (utf16_length (newPassword d) <? 6)%nat
  then Refused "Password must be at least 6 characters"
  else Sent (currentPassword d) (newPassword d).

End Settings.

(** ** The theme provider *)

Module Theme.

(** The [darkMode] state of the provider, the ['dark-mode'] item of
    [localStorage], and whether the document element has the class
    [dark]. *)
Record state := { darkMode : bool; saved : option string; dark_class : bool }.

Definition updateDocumentTheme (isDark : bool) (st : state) : state :=
  {| darkMode := darkMode st; saved := saved st; dark_class := isDark |}.

Definition setDarkMode (isDark : bool) (st : state) : state :=
  {| darkMode := isDark; saved := saved st; dark_class := dark_class st |}.

Definition setItem (v : string) (st : state) : state :=
  {| darkMode := darkMode st; saved := Some v; dark_class := dark_class st |}.

Definition toString (b : bool) : string := if b then "true" else "false".

(** The effect run when the provider mounts. *)
Definition mount (st : state) : state :=
  match saved st with
  | Some (String _ _ as savedTheme) =>
      let isDark := String.eqb savedTheme "true" in
      updateDocumentTheme isDark (setDarkMode isDark st)
  | _ => st
  end.

(** [toggleDarkMode] as rendered with the current state. *)
Definition toggleDarkMode (st : state) : state :=
  let newDarkMode := negb (darkMode st) in
  updateDocumentTheme newDarkMode (setItem (toString newDarkMode) (setDarkMode newDarkMode st)).

(** Loading the page again: the provider starts from [useState(false)],
    the storage is kept, the document has the class the page gives it. *)
Definition reload (page_class : bool) (st : state) : state :=
  {| darkMode := false; saved := saved st; dark_class := page_class |}.

End Theme.

(** * Properties *)

(** ** Facts about the primitives *)

Lemma includes_elem_of (arr : list string) (x : string) :
  JS.includes arr x = true <-> x ∈ arr.
Proof.
  unfold JS.includes. induction arr as [|y arr IH]; simpl.
  - split; [discriminate | intros Hx; inversion Hx].
  - rewrite orb_true_iff, IH, String.eqb_eq, elem_of_cons. tauto.
Qed.

Lemma includes_not_elem_of (arr : list string) (x : string) :
  JS.includes arr x = false <-> x ∉ arr.
Proof.
  rewrite <- includes_elem_of. destruct (JS.includes arr x); split; congruence.
Qed.

Lemma admin_or_hr (c : caller) :
  isAdminOrHR c = true <-> role c = "admin" \/ role c = "hr".
Proof.
  unfold isAdminOrHR. rewrite includes_elem_of.
  rewrite !elem_of_cons, elem_of_nil. tauto.
Qed.

Lemma truthy_nonempty (p : option string) :
  JS.truthy p = true <-> exists s, p = Some s /\ s <> "".
Proof.
  destruct p as [[|a s]|]; simpl.
  - split; [discriminate | intros (s & [= <-] & Hs); congruence].
  - split; [| reflexivity].
    intros _. exists (String a s). split; [reflexivity | discriminate].
  - split; [discriminate | intros (s & Hs & _); discriminate].
Qed.


(** [Math.round(n / d)] is the integer nearest to [n / d], the upper
    one at a tie. *)
Lemma round_div_nearest (n d : Z) :
  0 < d ->
  2 * d * JS.round_div n d - d <= 2 * n < 2 * d * JS.round_div n d + d.
Proof.
  intros Hd. unfold JS.round_div.
  pose proof (Z.div_mod (2 * n + d) (2 * d) ltac:(lia)) as Hdm.
  pose proof (Z.mod_pos_bound (2 * n + d) (2 * d) ltac:(lia)) as Hb.
  lia.
Qed.

Lemma round_div_nonpos (n d : Z) :
  0 < d -> (JS.round_div n d <= 0 <-> 2 * n < d).
Proof.
  intros Hd. pose proof (round_div_nearest n d Hd) as Hn. split; intros; nia.
Qed.

(** The number model on a few spellings: a fraction, an exponent, a
    hexadecimal literal, an integer that is no double (it rounds to
    the even neighbour), overflow, and what is no number. *)
Example number_of_fraction : JS.StringToNumber "1.5" = JS.Num (3 # 2).
Proof. vm_compute. reflexivity. Qed.

Example number_of_exponent : JS.StringToNumber " 1e1 " = JS.Int 10.
Proof. vm_compute. reflexivity. Qed.

Example number_of_hex : JS.StringToNumber "0x1F" = JS.Int 31.
Proof. vm_compute. reflexivity. Qed.

Example number_rounds_to_double :
  JS.StringToNumber "9007199254740993" = JS.Int 9007199254740992.
Proof. vm_compute. reflexivity. Qed.

Example number_overflows : JS.StringToNumber "-1e400" = JS.Infinity true.
Proof. vm_compute. reflexivity. Qed.

Example number_of_garbage : JS.StringToNumber "12abc" = JS.NaN.
Proof. vm_compute. reflexivity. Qed.

Example parseInt_takes_the_prefix : JS.parseInt " 12abc" = JS.Int 12.
Proof. vm_compute. reflexivity. Qed.

Example parseInt_of_fraction : JS.parseInt "1.9" = JS.Int 1.
Proof. vm_compute. reflexivity. Qed.

Example trim_strips_no_break_space :
  JS.trim (String "194" (String "160" " pending ")) = "pending".
Proof. vm_compute. reflexivity. Qed.

(** ** The calendar *)

Lemma year_of_era_bounds (doe : Z) :
  0 <= doe < 146097 ->
  let yoe := (doe - doe / 1460 + doe / 36524 - doe / 146096) / 365 in
  let doy := doe - (365 * yoe + yoe / 4 - yoe / 100) in
  0 <= yoe <= 399 /\ 0 <= doy <= 365.
Proof.
  intros Hdoe yoe doy. subst yoe doy.
  Z.div_mod_to_equations. lia.
Qed.

Lemma month_day_bounds (doy : Z) :
  0 <= doy <= 365 ->
  let mp := (5 * doy + 2) / 153 in
  let d := doy - (153 * mp + 2) / 5 + 1 in
  0 <= mp <= 11 /\ 1 <= d <= 31.
Proof.
  intros Hdoy mp d. subst mp d.
  Z.div_mod_to_equations. lia.
Qed.

(** [civil] names each day by a month from 1 to 12 and a day from 1 to
    31, and no two days get the same date: the day number is recovered
    from the date. *)
Lemma civil_days_from_civil (n : Z) :
  let '(y, m, d) := Calendar.civil n in
  Calendar.days_from_civil y m d = n /\ 1 <= m <= 12 /\ 1 <= d <= 31.
Proof.
  unfold Calendar.civil, Calendar.days_from_civil.
  set (z := n + 719468).
  set (era := z / 146097).
  set (doe := z - era * 146097).
  assert (0 <= doe < 146097) as Hdoe.
  { subst doe era. Z.div_mod_to_equations. lia. }
  pose proof (year_of_era_bounds doe Hdoe) as Hy. cbv zeta in Hy.
  set (yoe := (doe - doe / 1460 + doe / 36524 - doe / 146096) / 365) in *.
  set (doy := doe - (365 * yoe + yoe / 4 - yoe / 100)) in *.
  destruct Hy as [Hyoe Hdoy].
  pose proof (month_day_bounds doy Hdoy) as Hm. cbv zeta in Hm.
  set (mp := (5 * doy + 2) / 153) in *.
  set (d := doy - (153 * mp + 2) / 5 + 1) in *.
  destruct Hm as [Hmp Hd].
  cbv zeta.
  assert ((yoe + era * 400) / 400 = era) as Hera.
  { symmetry. apply (Z.div_unique _ _ _ yoe); lia. }
  clearbody yoe mp.
  destruct (Z.ltb_spec mp 10) as [Hlt | Hge].
  - destruct (Z.leb_spec (mp + 3) 2) as [Hle | Hgt]; [exfalso; clear - Hle Hmp; lia|].
    destruct (Z.ltb_spec 2 (mp + 3)) as [_ | Hle]; [|exfalso; clear - Hle Hmp; lia].
    replace (yoe + era * 400 + 0) with (yoe + era * 400) by ring.
    rewrite Hera. replace (mp + 3 - 3) with mp by ring.
    split; [|split; [clear - Hmp Hlt; lia | exact Hd]].
    replace (yoe + era * 400 - era * 400) with yoe by ring.
    unfold d, doy, doe, z. ring.
  - destruct (Z.leb_spec (mp - 9) 2) as [_ | Hgt]; [|exfalso; clear - Hgt Hmp; lia].
    destruct (Z.ltb_spec 2 (mp - 9)) as [Hlt | _]; [exfalso; clear - Hlt Hmp; lia|].
    replace (yoe + era * 400 + 1 - 1) with (yoe + era * 400) by ring.
    rewrite Hera. replace (mp - 9 + 9) with mp by ring.
    split; [|split; [clear - Hmp Hge; lia | exact Hd]].
    replace (yoe + era * 400 - era * 400) with yoe by ring.
    unfold d, doy, doe, z. ring.
Qed.

(** The date of a time value depends on its UTC day only. *)
Lemma iso_date_same_day (t1 t2 : Z) :
  t1 / Calendar.msPerDay = t2 / Calendar.msPerDay ->
  Calendar.iso_date t1 = Calendar.iso_date t2.
Proof. unfold Calendar.iso_date. by intros ->. Qed.

Example iso_date_leap_day : Calendar.iso_date 951782400000 = "2000-02-29".
Proof. reflexivity. Qed.

Example iso_date_before_epoch : Calendar.iso_date (-1) = "1969-12-31".
Proof. reflexivity. Qed.

(** ** C1: who a listing is about *)

Section ListAssignee.
Context `{Collaborators}.

Lemma list_tasks_assignee (c : caller) (q : Query.t) (plan : list_plan) :
  list_tasks c q = Success plan ->
  q_assignedTo (find plan) = visible_assignee c (Query.assignedTo q).
Proof.
  unfold list_tasks. destruct (_ && _); [discriminate|].
  intros [= <-]. reflexivity.
Qed.

(** The assignee filter of a caller who is neither admin nor hr is
    ignored altogether: the answer is the one to the request with any
    other filter, or with none. *)
Lemma list_tasks_ignores_assignee (c : caller) (q : Query.t) (a : option string) :
  isAdminOrHR c = false ->
  list_tasks c (Query.with_assignedTo a q) = list_tasks c q.
Proof.
  intros Hrole. unfold isAdminOrHR in Hrole.
  unfold list_tasks, visible_assignee, Query.with_assignedTo.
  cbn [Query.assignedTo Query.status Query.priority Query.category Query.search
       Query.page Query.limit Query.sortBy Query.sortOrder].
  rewrite Hrole. reflexivity.
Qed.

(** C1.  Whenever the list handler hands a predicate to the database,
    its [assignedTo] component is the caller's id for a caller who is
    neither admin nor hr, whatever assignee filter was sent; for an
    admin or hr caller it is the assignee filter when one is given
    (a non-empty value), and the caller's id when none is given.
    For a caller who is neither admin nor hr the filter changes
    nothing at all in the answer, so it never causes an error. *)
Theorem C1_list_assignee_rule (c : caller) (q : Query.t) :
  (forall plan, list_tasks c q = Success plan ->
     (~ (role c = "admin" \/ role c = "hr") ->
        q_assignedTo (find plan) = caller_id c) /\
     (role c = "admin" \/ role c = "hr" ->
        forall a, Query.assignedTo q = Some a -> a <> "" ->
        q_assignedTo (find plan) = a) /\
     (role c = "admin" \/ role c = "hr" ->
        Query.assignedTo q = None \/ Query.assignedTo q = Some "" ->
        q_assignedTo (find plan) = caller_id c)) /\
  (~ (role c = "admin" \/ role c = "hr") ->
     forall a, list_tasks c (Query.with_assignedTo a q) = list_tasks c q).
Proof.
  split.
  - intros plan Hplan. rewrite (list_tasks_assignee _ _ _ Hplan).
    unfold visible_assignee. fold (isAdminOrHR c).
    destruct (isAdminOrHR c) eqn:Hrole; simpl.
    + apply admin_or_hr in Hrole. split; [tauto|]. split.
      * intros _ a -> Ha. destruct a; [congruence | reflexivity].
      * intros _ [-> | ->]; reflexivity.
    + assert (~ (role c = "admin" \/ role c = "hr")) as Hno.
      { rewrite <- admin_or_hr. congruence. }
      split; [reflexivity | split; intros; tauto].
  - intros Hno a. apply list_tasks_ignores_assignee.
    rewrite <- admin_or_hr in Hno. destruct (isAdminOrHR c); congruence.
Qed.
End ListAssignee.

Lemma C1_list_assignee_rule_witness :
  let q := Query.with_assignedTo (Some "u-bob") Query.empty in
  exists plan_e plan_a,
    @list_tasks Sample.collaborators Sample.alice q = Success plan_e /\
    q_assignedTo (find plan_e) = "u-alice" /\
    @list_tasks Sample.collaborators Sample.admin q = Success plan_a /\
    q_assignedTo (find plan_a) = "u-bob".
Proof.
  intros q.
  destruct (@list_tasks Sample.collaborators Sample.alice q) as [plan_e| | | |] eqn:He;
    try (vm_compute in He; discriminate).
  destruct (@list_tasks Sample.collaborators Sample.admin q) as [plan_a| | | |] eqn:Ha;
    try (vm_compute in Ha; discriminate).
  exists plan_e, plan_a.
  pose proof (proj1 (@C1_list_assignee_rule Sample.collaborators Sample.alice q) plan_e He)
    as (He1 & _).
  pose proof (proj1 (@C1_list_assignee_rule Sample.collaborators Sample.admin q) plan_a Ha)
    as (_ & Ha2 & _).
  split; [reflexivity|]. split.
  - apply He1. intros [Hr | Hr]; vm_compute in Hr; discriminate.
  - split; [reflexivity|].
    apply (Ha2 (or_introl eq_refl) "u-bob" eq_refl). discriminate.
Defined.

(** ** The update handler: filtering, side effect, persistence *)

Lemma Object_keys_elem_of (o : doc) (k : string) :
  k ∈ Object_keys o <-> is_Some (o !! k).
Proof.
  unfold Object_keys. rewrite list_elem_of_fmap. split.
  - intros ([k' v] & -> & Hin). apply elem_of_map_to_list in Hin. eauto.
  - intros [v Hv]. exists (k, v). split; [reflexivity|].
    by apply elem_of_map_to_list.
Qed.

(** The loop over any list of keys, from any starting object. *)
Lemma collect_loop_lookup (allowed : list string) (body : doc) (keys : list string)
    (acc : doc) (k : string) :
  foldl (fun updates key =>
           if JS.includes allowed key
           then match body !! key with
                | Some v => <[key := v]> updates
                | None => updates
                end
           else updates) acc keys !! k
  = if decide (k ∈ keys /\ JS.includes allowed k = true /\ is_Some (body !! k))
    then body !! k else acc !! k.
Proof.
  revert acc. induction keys as [|key keys IH]; intros acc; cbn [foldl].
  - case_decide as Hk; [|reflexivity]. destruct Hk as (Hk & _). inversion Hk.
  - rewrite IH. clear IH.
    destruct (decide (k ∈ keys /\ JS.includes allowed k = true /\ is_Some (body !! k)))
      as [Hin | Hout].
    { rewrite decide_True; [reflexivity|]. destruct Hin as (Hin & Hrest).
      split; [by apply list_elem_of_further | exact Hrest]. }
    destruct (decide (key = k)) as [-> | Hne].
    + destruct (decide (JS.includes allowed k = true /\ is_Some (body !! k)))
        as [(Hinc & v & Hv) | Hno].
      * rewrite Hinc, Hv, lookup_insert_eq.
        rewrite decide_True; [reflexivity|].
        split; [apply list_elem_of_here | eauto].
      * rewrite decide_False by tauto.
        destruct (JS.includes allowed k); [|reflexivity].
        destruct (body !! k) as [v|]; [|reflexivity].
        exfalso. apply Hno. eauto.
    + rewrite decide_False.
      * destruct (JS.includes allowed key); [|reflexivity].
        destruct (body !! key); [|reflexivity].
        by rewrite lookup_insert_ne.
      * intros (Hin & Hrest). apply Hout. split; [|exact Hrest].
        apply elem_of_cons in Hin as [-> | Hin]; [congruence | exact Hin].
Qed.

(** Exactly the keys that are both sent and allowed are collected, with
    the values sent. *)
Lemma collect_updates_lookup (allowed : list string) (body : doc) (k : string) :
  collect_updates allowed body !! k = if JS.includes allowed k then body !! k else None.
Proof.
  unfold collect_updates. rewrite collect_loop_lookup, lookup_empty.
  case_decide as Hk.
  - destruct Hk as (_ & -> & _). reflexivity.
  - destruct (JS.includes allowed k) eqn:Hinc; [|reflexivity].
    destruct (body !! k) as [v|] eqn:Hv; [|reflexivity].
    exfalso. apply Hk. rewrite Object_keys_elem_of, Hv. eauto.
Qed.

Lemma collect_updates_filter (allowed : list string) (body : doc) :
  collect_updates allowed (filter (fun kv => kv.1 ∈ allowed) body)
  = collect_updates allowed body.
Proof.
  apply map_eq. intros k. rewrite !collect_updates_lookup.
  destruct (JS.includes allowed k) eqn:Hinc; [|reflexivity].
  apply includes_elem_of in Hinc.
  destruct (body !! k) as [v|] eqn:Hv.
  - by apply map_lookup_filter_Some.
  - apply map_lookup_filter_None. by left.
Qed.

Lemma status_allowed (b : bool) : JS.includes (allowedUpdates b) "status" = true.
Proof. destruct b; reflexivity. Qed.

Lemma progress_allowed (b : bool) : JS.includes (allowedUpdates b) "progress" = true.
Proof. destruct b; reflexivity. Qed.

Lemma completedAt_not_allowed (b : bool) :
  JS.includes (allowedUpdates b) "completedAt" = false.
Proof. destruct b; reflexivity. Qed.

(** The applied field set sets status to "completed" exactly when the
    body does. *)
Lemma sets_completed_body (b : bool) (body : doc) :
  sets_completed (collect_updates (allowedUpdates b) body) = true
  <-> body !! "status" = Some (VStr "completed").
Proof.
  unfold sets_completed. rewrite collect_updates_lookup, status_allowed.
  destruct (body !! "status") as [[| | | |s| | |]|]; try (split; congruence).
  rewrite String.eqb_eq. split; congruence.
Qed.

Lemma completion_lookup (now : Z) (updates : doc) (k : string) :
  completion now updates !! k =
  if sets_completed updates
  then if decide (k = "progress") then Some (VNum 100)
       else if decide (k = "completedAt") then Some (VDate now)
       else updates !! k
  else updates !! k.
Proof.
  unfold completion. destruct (sets_completed updates); [|reflexivity].
  repeat case_decide; subst; simplify_map_eq; reflexivity.
Qed.

Section Update.
Context `{Collaborators}.

(** What the handler does for a caller it lets through. *)
Lemma update_task_allowed (now : Z) (c : caller) (id : string) (body : doc)
    (st : store) (task : doc) (a : string) :
  tasks st !! id = Some task ->
  ref_string (task !! "assignedTo") = Some a ->
  isAdminOrHR c = true \/ a = caller_id c ->
  update_task now c id body st =
  findByIdAndUpdate id
    (completion now (collect_updates (allowedUpdates (isAdminOrHR c)) body)) st.
Proof.
  intros Htask Ha Hok. unfold update_task. rewrite Htask, Ha.
  fold (isAdminOrHR c).
  destruct Hok as [-> | ->]; [reflexivity|].
  rewrite String.eqb_refl, andb_false_r. reflexivity.
Qed.

Lemma update_task_denied (now : Z) (c : caller) (id : string) (body : doc)
    (st : store) (task : doc) (a : string) :
  tasks st !! id = Some task ->
  ref_string (task !! "assignedTo") = Some a ->
  isAdminOrHR c = false -> a <> caller_id c ->
  update_task now c id body st = (AccessDenied, st).
Proof.
  intros Htask Ha Hrole Hne. unfold update_task. rewrite Htask, Ha.
  fold (isAdminOrHR c). rewrite Hrole.
  apply String.eqb_neq in Hne. rewrite Hne. reflexivity.
Qed.

(** Every successful update is an authorised one that passed the
    schema's validators and set the collected fields on the task. *)
Lemma update_task_success (now : Z) (c : caller) (id : string) (body : doc)
    (st st' : store) (r : option doc) :
  update_task now c id body st = (Success r, st') ->
  exists task a,
    tasks st !! id = Some task /\
    ref_string (task !! "assignedTo") = Some a /\
    (isAdminOrHR c = true \/ a = caller_id c) /\
    let updates := completion now (collect_updates (allowedUpdates (isAdminOrHR c)) body) in
    Task_validate_update updates = true /\
    r = Some (updates ∪ task) /\
    st' = with_tasks st (<[id := updates ∪ task]> (tasks st)).
Proof.
  unfold update_task. destruct (tasks st !! id) as [task|] eqn:Htask; [|discriminate].
  destruct (ref_string (task !! "assignedTo")) as [a|] eqn:Ha; [|discriminate].
  fold (isAdminOrHR c).
  destruct (negb (isAdminOrHR c) && negb (a =? caller_id c)%string) eqn:Hden;
    [discriminate|].
  unfold findByIdAndUpdate. rewrite Htask.
  destruct (Task_validate_update _) eqn:Hval; [|discriminate].
  intros [= <- <-]. exists task, a. repeat split; try assumption.
  apply andb_false_iff in Hden as [Hd | Hd]; apply negb_false_iff in Hd.
  - by left.
  - right. by apply String.eqb_eq.
Qed.

(** An unsuccessful update changes nothing. *)
Lemma update_task_failure (now : Z) (c : caller) (id : string) (body : doc)
    (st st' : store) (r : outcome (option doc)) :
  update_task now c id body st = (r, st') ->
  (forall x, r <> Success x) -> st' = st.
Proof.
  unfold update_task, findByIdAndUpdate.
  destruct (tasks st !! id) as [task|]; [|congruence].
  destruct (ref_string _); [|congruence].
  destruct (_ && _); [congruence|].
  destruct (Task_validate_update _); [|congruence].
  intros [= <- <-] Hr. exfalso. by eapply Hr.
Qed.
End Update.

Section UpdatePolicy.
Context `{Collaborators}.

(** C2.  An update whose applied fields set status to "completed"
    (the body says so, status being in both allow-sets) persists a
    task with status "completed", progress 100 and [completedAt]
    equal to the time of the update, whatever progress was sent.
    Such an update does go through for a caller the handler admits
    and a field set the schema accepts. *)
Theorem C2_completed_forces_progress (now : Z) (c : caller) (id : string)
    (body : doc) (st : store) :
  body !! "status" = Some (VStr "completed") ->
  (forall r st',
     update_task now c id body st = (Success r, st') ->
     exists task',
       r = Some task' /\ tasks st' !! id = Some task' /\
       task' !! "status" = Some (VStr "completed") /\
       task' !! "progress" = Some (VNum 100) /\
       task' !! "completedAt" = Some (VDate now)) /\
  (forall task a,
     tasks st !! id = Some task ->
     ref_string (task !! "assignedTo") = Some a ->
     role c = "admin" \/ role c = "hr" \/ a = caller_id c ->
     Task_validate_update
       (completion now (collect_updates (allowedUpdates (isAdminOrHR c)) body)) = true ->
     exists task',
       update_task now c id body st
       = (Success (Some task'), with_tasks st (<[id := task']> (tasks st)))).
Proof.
  intros Hstatus. split.
  - intros r st' Hrun.
    apply update_task_success in Hrun
      as (task & a & Htask & Ha & Hok & Hval & -> & ->).
    eexists. split; [reflexivity|]. split; [apply lookup_insert_eq|].
    pose proof (proj2 (sets_completed_body (isAdminOrHR c) body) Hstatus) as Hset.
    repeat split; apply lookup_union_Some_l; rewrite completion_lookup, Hset.
    + rewrite decide_False by discriminate. rewrite decide_False by discriminate.
      by rewrite collect_updates_lookup, status_allowed.
    + by rewrite decide_True.
    + rewrite decide_False by discriminate. by rewrite decide_True.
  - intros task a Htask Ha Hok Hval.
    rewrite (update_task_allowed now c id body st task a Htask Ha).
    + unfold findByIdAndUpdate. rewrite Hval, Htask. eauto.
    + rewrite admin_or_hr. tauto.
Qed.

(** C3.  For a task that exists: a caller who is neither admin or hr
    nor the assignee is refused and the store stays as it was.  For
    any other caller the fields collected from the body are exactly
    those named both in the body and in the caller's allow-set (the
    twelve fields for admin or hr, the four for an assignee who is
    neither), with the values sent, and the other keys are dropped
    silently, the answer being the one to the body without them.  The
    update goes through when the schema accepts the collected fields,
    and then the stored task holds, for every allowed key, the value
    the body sent, or its old value when the body sent none (progress
    apart when the update completes the task, which then becomes 100);
    no field outside the allow-set changes, [completedAt] apart, which
    only the completion side effect writes; and an update that does
    not go through changes nothing. *)
Theorem C3_update_field_policy (now : Z) (c : caller) (id : string) (body : doc)
    (st : store) (task : doc) (a : string) :
  tasks st !! id = Some task ->
  ref_string (task !! "assignedTo") = Some a ->
  (~ (role c = "admin" \/ role c = "hr") -> a <> caller_id c ->
     update_task now c id body st = (AccessDenied, st)) /\
  (role c = "admin" \/ role c = "hr" \/ a = caller_id c ->
     let allowed := allowedUpdates (isAdminOrHR c) in
     (role c = "admin" \/ role c = "hr" ->
        allowed = ["title"; "description"; "priority"; "assignedTo"; "dueDate";
                   "estimatedHours"; "category"; "tags"; "status"; "progress";
                   "dependencies"; "completionReason"]) /\
     (~ (role c = "admin" \/ role c = "hr") ->
        allowed = ["status"; "progress"; "actualHours"; "completionReason"]) /\
     (forall k, collect_updates allowed body !! k
                = if decide (k ∈ allowed) then body !! k else None) /\
     update_task now c id body st
     = update_task now c id (filter (fun kv => kv.1 ∈ allowed) body) st /\
     (forall r st',
        update_task now c id body st = (r, st') ->
        r <> AccessDenied /\ r <> NotFound /\ r <> ValidationFailed /\
        exists task',
          tasks st' !! id = Some task' /\
          forall k, k ∉ allowed -> k <> "completedAt" -> task' !! k = task !! k) /\
     (Task_validate_update (completion now (collect_updates allowed body)) = true ->
        exists task',
          update_task now c id body st
          = (Success (Some task'), with_tasks st (<[id := task']> (tasks st))) /\
          forall k, k ∈ allowed ->
            (k = "progress" -> body !! "status" <> Some (VStr "completed")) ->
            task' !! k = match body !! k with
                         | Some v => Some v
                         | None => task !! k
                         end) /\
     (forall x st',
        update_task now c id body st = (Success x, st') ->
        Task_validate_update (completion now (collect_updates allowed body)) = true) /\
     (forall r st',
        update_task now c id body st = (r, st') -> (forall x, r <> Success x) -> st' = st)).
Proof.
  intros Htask Ha. split.
  - intros Hno Hne. apply (update_task_denied now c id body st task a); try assumption.
    rewrite <- admin_or_hr in Hno. destruct (isAdminOrHR c); congruence.
  - intros Hok allowed.
    assert (isAdminOrHR c = true \/ a = caller_id c) as Hok'.
    { rewrite admin_or_hr. tauto. }
    split; [|split; [|split; [|split; [|split; [|split; [|split]]]]]].
    + intros Hrole. apply admin_or_hr in Hrole. subst allowed. by rewrite Hrole.
    + intros Hrole. rewrite <- admin_or_hr in Hrole. subst allowed.
      by destruct (isAdminOrHR c).
    + intros k. rewrite collect_updates_lookup.
      destruct (JS.includes allowed k) eqn:Hinc.
      * apply includes_elem_of in Hinc. by rewrite decide_True.
      * apply includes_not_elem_of in Hinc. by rewrite decide_False.
    + rewrite !(update_task_allowed now c id _ st task a Htask Ha Hok').
      fold allowed. by rewrite collect_updates_filter.
    + intros r st'.
      rewrite (update_task_allowed now c id _ st task a Htask Ha Hok').
      fold allowed. unfold findByIdAndUpdate. rewrite Htask.
      destruct (Task_validate_update _); intros [= <- <-].
      * repeat split; try discriminate.
        eexists. split; [apply lookup_insert_eq|].
        intros k Hk Hc. apply includes_not_elem_of in Hk.
        rewrite lookup_union_r; [reflexivity|].
        rewrite completion_lookup.
        assert (collect_updates allowed body !! k = None) as Hnone.
        { by rewrite collect_updates_lookup, Hk. }
        destruct (sets_completed _); [|exact Hnone].
        rewrite decide_False.
        -- by rewrite decide_False.
        -- intros ->. subst allowed. by rewrite progress_allowed in Hk.
      * repeat split; try discriminate. eauto.
    + intros Hval.
      rewrite (update_task_allowed now c id _ st task a Htask Ha Hok').
      fold allowed. unfold findByIdAndUpdate. rewrite Hval, Htask.
      eexists. split; [reflexivity|].
      intros k Hk Hprogress. apply includes_elem_of in Hk.
      rewrite lookup_union, completion_lookup.
      assert (collect_updates allowed body !! k = body !! k) as Hsent.
      { by rewrite collect_updates_lookup, Hk. }
      destruct (sets_completed (collect_updates allowed body)) eqn:Hset.
      * apply sets_completed_body in Hset.
        rewrite decide_False by (intros ->; by apply Hprogress).
        rewrite decide_False.
        -- rewrite Hsent. by destruct (body !! k), (task !! k).
        -- intros ->. subst allowed. by rewrite completedAt_not_allowed in Hk.
      * rewrite Hsent. by destruct (body !! k), (task !! k).
    + intros x st' Hrun.
      apply update_task_success in Hrun as (_ & _ & _ & _ & _ & Hval & _).
      exact Hval.
    + intros r st'. apply update_task_failure.
Qed.

(** C10.  An update that does not set status to "completed" leaves
    [completedAt] as it was, also when it moves the status away from
    "completed"; progress becomes what the body sent, or stays when
    the body sent none; an update that fails changes nothing. *)
Theorem C10_other_updates_keep_completedAt (now : Z) (c : caller) (id : string)
    (body : doc) (st : store) (task : doc) :
  tasks st !! id = Some task ->
  body !! "status" <> Some (VStr "completed") ->
  forall r st',
    update_task now c id body st = (r, st') ->
    exists task',
      tasks st' !! id = Some task' /\
      task' !! "completedAt" = task !! "completedAt" /\
      (forall x, r = Success x ->
         task' !! "progress" = match body !! "progress" with
                               | Some v => Some v
                               | None => task !! "progress"
                               end) /\
      ((forall x, r <> Success x) -> task' = task).
Proof.
  intros Htask Hstatus r st' Hrun.
  destruct r as [x| | | |].
  - apply update_task_success in Hrun
      as (task0 & a & Htask0 & Ha & Hok & Hval & -> & ->).
    assert (task0 = task) as -> by congruence.
    eexists. split; [apply lookup_insert_eq|].
    assert (sets_completed (collect_updates (allowedUpdates (isAdminOrHR c)) body) = false)
      as Hset.
    { destruct (sets_completed _) eqn:Hs; [|reflexivity].
      apply sets_completed_body in Hs. contradiction. }
    split; [|split].
    + apply lookup_union_r.
      by rewrite completion_lookup, Hset, collect_updates_lookup, completedAt_not_allowed.
    + intros _ _. rewrite lookup_union.
      rewrite completion_lookup, Hset, collect_updates_lookup, progress_allowed.
      destruct (body !! "progress"), (task !! "progress"); reflexivity.
    + intros Hx. exfalso. by eapply Hx.
  - apply update_task_failure in Hrun; [subst st'|discriminate].
    exists task. repeat split; try assumption; discriminate.
  - apply update_task_failure in Hrun; [subst st'|discriminate].
    exists task. repeat split; try assumption; discriminate.
  - apply update_task_failure in Hrun; [subst st'|discriminate].
    exists task. repeat split; try assumption; discriminate.
  - apply update_task_failure in Hrun; [subst st'|discriminate].
    exists task. repeat split; try assumption; discriminate.
Qed.
End UpdatePolicy.

Lemma C2_completed_forces_progress_witness :
  let body : doc := {[ "status" := VStr "completed"; "progress" := VNum 40;
                       "priority" := VStr "urgent" ]} in
  exists task',
    @update_task Sample.collaborators 1704102300000 Sample.alice "t-a" body Sample.db
    = (Success (Some task'), with_tasks Sample.db (<["t-a" := task']> (tasks Sample.db))) /\
    task' !! "progress" = Some (VNum 100) /\
    task' !! "completedAt" = Some (VDate 1704102300000).
Proof.
  intros body.
  destruct (@C2_completed_forces_progress Sample.collaborators 1704102300000
              Sample.alice "t-a" body Sample.db) as [Hshape Hruns].
  { reflexivity. }
  destruct (Hruns Sample.task_a "u-alice") as [task' Hrun].
  { reflexivity. }
  { reflexivity. }
  { right. right. reflexivity. }
  { reflexivity. }
  destruct (Hshape _ _ Hrun) as (t & Ht & _ & _ & Hp & Hc).
  injection Ht as <-.
  exists task'. split; [exact Hrun | split; assumption].
Defined.

Lemma C3_update_field_policy_witness :
  let body : doc := {[ "status" := VStr "in-progress"; "priority" := VStr "urgent" ]} in
  @update_task Sample.collaborators 1704102300000 Sample.bob "t-a" body Sample.db
  = (AccessDenied, Sample.db) /\
  exists task',
    @update_task Sample.collaborators 1704102300000 Sample.alice "t-a" body Sample.db
    = (Success (Some task'), with_tasks Sample.db (<["t-a" := task']> (tasks Sample.db))) /\
    task' !! "status" = Some (VStr "in-progress") /\
    task' !! "priority" = Some (VStr "medium").
Proof.
  intros body.
  pose proof (@C3_update_field_policy Sample.collaborators 1704102300000 Sample.bob
                "t-a" body Sample.db Sample.task_a "u-alice") as Hbob.
  pose proof (@C3_update_field_policy Sample.collaborators 1704102300000 Sample.alice
                "t-a" body Sample.db Sample.task_a "u-alice") as Halice.
  destruct Hbob as [Hdenied _]; [reflexivity | reflexivity |].
  destruct Halice as [_ Hallowed]; [reflexivity | reflexivity |].
  split.
  - apply Hdenied.
    + intros [Hr | Hr]; vm_compute in Hr; discriminate.
    + discriminate.
  - destruct (Hallowed (or_intror (or_intror eq_refl)))
      as (_ & _ & _ & _ & Hframe & Happlied & _).
    destruct (Happlied eq_refl) as (task' & Hrun & Hset).
    destruct (Hframe _ _ Hrun) as (_ & _ & _ & task'' & Htask'' & Hkeep).
    cbn [tasks with_tasks] in Htask''. rewrite lookup_insert_eq in Htask''.
    injection Htask'' as <-.
    exists task'. split; [exact Hrun|]. split.
    + rewrite (Hset "status"); [reflexivity | | discriminate].
      change ("status" ∈ ["status"; "progress"; "actualHours"; "completionReason"]).
      apply list_elem_of_here.
    + rewrite (Hkeep "priority"); [reflexivity | | discriminate].
      change ("priority" ∉ ["status"; "progress"; "actualHours"; "completionReason"]).
      intros Hin. repeat (apply elem_of_cons in Hin as [Hin|Hin]; [discriminate|]).
      inversion Hin.
Defined.

Lemma C10_other_updates_keep_completedAt_witness :
  let body : doc := {[ "status" := VStr "in-progress"; "progress" := VNum 50 ]} in
  exists r st' task',
    @update_task Sample.collaborators 1704186000000 Sample.bob "t-b" body Sample.db
    = (r, st') /\
    tasks st' !! "t-b" = Some task' /\
    task' !! "completedAt" = Some (VDate 1704099600000).
Proof.
  intros body.
  destruct (@update_task Sample.collaborators 1704186000000 Sample.bob "t-b" body
              Sample.db) as [r st'] eqn:Hrun.
  destruct (@C10_other_updates_keep_completedAt Sample.collaborators 1704186000000
              Sample.bob "t-b" body Sample.db Sample.task_b) with (r := r) (st' := st')
    as (task' & Htask' & Hkept & _).
  - reflexivity.
  - vm_compute. discriminate.
  - exact Hrun.
  - exists r, st', task'. split; [reflexivity|]. split; [exact Htask'|].
    rewrite Hkept. reflexivity.
Defined.

(** ** Comments and time entries *)

Section Appends.
Context `{Collaborators}.

(** A comment request touches nothing but the [comments] of its task. *)
Lemma add_comment_frame (c : caller) (id : string) (body : doc) (st st' : store)
    (task : doc) (r : outcome (list value)) :
  tasks st !! id = Some task ->
  add_comment c id body st = (r, st') ->
  exists task',
    tasks st' !! id = Some task' /\
    forall k, k <> "comments" -> task' !! k = task !! k.
Proof.
  intros Htask. unfold add_comment, save. rewrite Htask.
  repeat case_match; intros Hrun; simplify_eq; try (exists task; by split).
  eexists. split; [apply lookup_insert_eq|].
  intros k Hk. by rewrite lookup_insert_ne.
Qed.

(** A time-tracking request touches nothing but the [timeTracking] of
    its task. *)
Lemma add_time_tracking_frame (c : caller) (id : string) (body : doc) (st st' : store)
    (task : doc) (r : outcome (list value)) :
  tasks st !! id = Some task ->
  add_time_tracking c id body st = (r, st') ->
  exists task',
    tasks st' !! id = Some task' /\
    forall k, k <> "timeTracking" -> task' !! k = task !! k.
Proof.
  intros Htask. unfold add_time_tracking, save. rewrite Htask.
  repeat case_match; intros Hrun; simplify_eq; try (exists task; by split).
  all: eexists; (split; [apply lookup_insert_eq|]).
  all: intros k Hk; by rewrite lookup_insert_ne.
Qed.

(** What the time-tracking handler does for the assignee of the task
    once the request is valid and both timestamps parse. *)
Lemma add_time_tracking_assignee (c : caller) (id : string) (body : doc) (st : store)
    (task : doc) (start end_ : Z) :
  time_valid body = true ->
  tasks st !! id = Some task ->
  ref_string (task !! "assignedTo") = Some (caller_id c) ->
  Date_new (body !! "startTime") = Some start ->
  Date_new (body !! "endTime") = Some end_ ->
  add_time_tracking c id body st =
  let duration := JS.round_div (end_ - start) 60000 in
  if duration <=? 0 then (ValidationFailed, st)
  else
    let entry :=
      VObj ([("startTime", VDate start); ("endTime", VDate end_);
             ("duration", VNum (inject_Z duration))]
            ++ prop "description" (body !! "description")
            ++ [("date", VStr (Calendar.iso_date start))]) in
    let entries := array_field "timeTracking" task ++ [entry] in
    match save id (<["timeTracking" := VArr entries]> task) st with
    | Some st' => (Success entries, st')
    | None => (ServerError, st)
    end.
Proof.
  intros Hvalid Htask Ha Hstart Hend. unfold add_time_tracking.
  rewrite Hvalid, Htask, Ha, String.eqb_refl, Hstart, Hend. reflexivity.
Qed.
End Appends.

(** ** C4: existence and authorisation *)

(** C4 as worded fails for deletion: an employee who asks to
    delete a task that does not exist is refused for the role, the
    handler that would answer not-found is never reached. *)
Lemma C4_delete_refuses_before_lookup :
  tasks Sample.db !! "t-none" = None /\
  delete_task Sample.alice "t-none" Sample.db = (AccessDenied, Sample.db).
Proof. split; reflexivity. Qed.

Section Ordering.
Context `{Collaborators}.

(** C4, amended.  For reading, updating, commenting on and tracking
    time on a task, a request for an id that is not in the store is
    answered not-found whoever the caller is (for the two routes with
    a validated body: once the body is valid), and these four answer
    access-denied only for a task that exists.  Deletion passes the
    admin gate first: an admin gets not-found for a missing id, any
    other caller is refused whether the task exists or not. *)
Theorem C4_existence_then_authorization (c : caller) (id : string) (st : store) :
  (tasks st !! id = None ->
     get_task c id st = NotFound /\
     (forall now body, update_task now c id body st = (NotFound, st)) /\
     (forall body, notEmpty (body !! "comment") = true ->
                   add_comment c id body st = (NotFound, st)) /\
     (forall body, time_valid body = true ->
                   add_time_tracking c id body st = (NotFound, st)) /\
     (role c = "admin" -> delete_task c id st = (NotFound, st))) /\
  (get_task c id st = AccessDenied -> is_Some (tasks st !! id)) /\
  (forall now body, (update_task now c id body st).1 = AccessDenied ->
                    is_Some (tasks st !! id)) /\
  (forall body, (add_comment c id body st).1 = AccessDenied -> is_Some (tasks st !! id)) /\
  (forall body, (add_time_tracking c id body st).1 = AccessDenied ->
                is_Some (tasks st !! id)) /\
  (role c <> "admin" -> delete_task c id st = (AccessDenied, st)).
Proof.
  split; [|split; [|split; [|split; [|split]]]].
  - intros Hnone. repeat split.
    + unfold get_task. by rewrite Hnone.
    + intros now body. unfold update_task. by rewrite Hnone.
    + intros body Hvalid. unfold add_comment. by rewrite Hvalid, Hnone.
    + intros body Hvalid. unfold add_time_tracking. by rewrite Hvalid, Hnone.
    + intros Hadmin. unfold delete_task, authorize. rewrite Hadmin, Hnone. reflexivity.
  - unfold get_task. destruct (tasks st !! id); [eauto | discriminate].
  - intros now body. unfold update_task.
    destruct (tasks st !! id); [eauto | discriminate].
  - intros body. unfold add_comment.
    destruct (negb _); [discriminate|].
    destruct (tasks st !! id); [eauto | discriminate].
  - intros body. unfold add_time_tracking.
    destruct (negb _); [discriminate|].
    destruct (tasks st !! id); [eauto | discriminate].
  - intros Hrole. unfold delete_task, authorize.
    destruct (JS.includes ["admin"] (role c)) eqn:Hinc; [|reflexivity].
    apply includes_elem_of in Hinc. apply list_elem_of_singleton in Hinc. contradiction.
Qed.
End Ordering.

Lemma C4_existence_then_authorization_witness :
  @get_task Sample.alice "t-none" Sample.db = NotFound /\
  @delete_task Sample.admin "t-none" Sample.db = (NotFound, Sample.db) /\
  is_Some (tasks Sample.db !! "t-b").
Proof.
  destruct (@C4_existence_then_authorization Sample.collaborators Sample.alice "t-none"
              Sample.db) as (Hmissing & _).
  destruct (@C4_existence_then_authorization Sample.collaborators Sample.admin "t-none"
              Sample.db) as (Hadmin & _).
  destruct (@C4_existence_then_authorization Sample.collaborators Sample.alice "t-b"
              Sample.db) as (_ & Hread & _).
  split; [|split].
  - apply Hmissing. reflexivity.
  - apply Hadmin; reflexivity.
  - apply Hread. reflexivity.
Defined.

(** ** C5: time entries *)

(** C5 as worded fails for short intervals: an end time twenty
    seconds after the start rounds to a duration of zero minutes and is
    rejected, although it is strictly after the start. *)
Lemma C5_short_interval_rejected :
  let body : doc := {[ "startTime" := VStr "2024-01-01T09:00:00.000Z";
                       "endTime" := VStr "2024-01-01T09:00:20.000Z" ]} in
  Sample.parse_date (body !! "startTime") = Some 1704099600000 /\
  Sample.parse_date (body !! "endTime") = Some 1704099620000 /\
  @add_time_tracking Sample.collaborators Sample.alice "t-a" body Sample.db
  = (ValidationFailed, Sample.db).
Proof. repeat split; reflexivity. Qed.

Section TimeEntries.
Context `{Collaborators}.

(** C5, amended.  For a valid time-tracking request by the assignee
    whose two timestamps parse, the duration is the number of minutes
    nearest to the interval.  The request is rejected as invalid, and
    the store left as it was, exactly when that duration is not
    positive, that is when the end is less than thirty seconds after
    the start.  Otherwise one entry is appended to the task's list,
    with that (positive) duration and the UTC calendar day of the
    start as its date, provided the schema accepts the task. *)
Theorem C5_time_entry_rule (c : caller) (id : string) (body : doc) (st : store)
    (task : doc) (start end_ : Z) :
  time_valid body = true ->
  tasks st !! id = Some task ->
  ref_string (task !! "assignedTo") = Some (caller_id c) ->
  Date_new (body !! "startTime") = Some start ->
  Date_new (body !! "endTime") = Some end_ ->
  let duration := JS.round_div (end_ - start) 60000 in
  let entry :=
    VObj ([("startTime", VDate start); ("endTime", VDate end_);
           ("duration", VNum (inject_Z duration))]
          ++ prop "description" (body !! "description")
          ++ [("date", VStr (Calendar.iso_date start))]) in
  let entries := array_field "timeTracking" task ++ [entry] in
  let task' := <["timeTracking" := VArr entries]> task in
  120000 * duration - 60000 <= 2 * (end_ - start) < 120000 * duration + 60000 /\
  ((add_time_tracking c id body st).1 = ValidationFailed <-> end_ - start < 30000) /\
  (end_ - start < 30000 -> add_time_tracking c id body st = (ValidationFailed, st)) /\
  (30000 <= end_ - start ->
     0 < duration /\
     (Task_validate task' = true ->
        add_time_tracking c id body st
        = (Success entries, with_tasks st (<[id := task']> (tasks st)))) /\
     (Task_validate task' = false ->
        add_time_tracking c id body st = (ServerError, st))).
Proof.
  intros Hvalid Htask Ha Hstart Hend duration entry entries task'.
  pose proof (round_div_nearest (end_ - start) 60000 ltac:(lia)) as Hnear.
  pose proof (round_div_nonpos (end_ - start) 60000 ltac:(lia)) as Hnonpos.
  fold duration in Hnear, Hnonpos.
  rewrite (add_time_tracking_assignee c id body st task start end_
             Hvalid Htask Ha Hstart Hend).
  cbv zeta. fold duration. fold entry. fold entries. fold task'. unfold save.
  split; [lia|].
  destruct (Z.leb_spec duration 0) as [Hle | Hgt].
  - split; [|split].
    + split; [lia | reflexivity].
    + reflexivity.
    + lia.
  - split; [|split].
    + split; [|lia]. destruct (Task_validate task'); discriminate.
    + lia.
    + intros _. split; [lia|]. split; intros ->; reflexivity.
Qed.
End TimeEntries.

Lemma C5_time_entry_rule_witness :
  let body : doc := {[ "startTime" := VStr "2024-01-01T09:00:00.000Z";
                       "endTime" := VStr "2024-01-01T09:45:00.000Z" ]} in
  let entry := VObj [("startTime", VDate 1704099600000); ("endTime", VDate 1704102300000);
                     ("duration", VNum 45); ("date", VStr "2024-01-01")] in
  (@add_time_tracking Sample.collaborators Sample.alice "t-a" body Sample.db).1
  = Success [entry].
Proof.
  intros body entry.
  assert (@time_valid Sample.collaborators body = true) as Hvalid
    by (reflexivity).
  assert (tasks Sample.db !! "t-a" = Some Sample.task_a) as Htask
    by (reflexivity).
  assert (ref_string (Sample.task_a !! "assignedTo") = Some (caller_id Sample.alice))
    as Ha by (reflexivity).
  assert (Sample.parse_date (body !! "startTime") = Some 1704099600000) as Hstart
    by (reflexivity).
  assert (Sample.parse_date (body !! "endTime") = Some 1704102300000) as Hend
    by (reflexivity).
  destruct (@C5_time_entry_rule Sample.collaborators Sample.alice "t-a" body Sample.db
              Sample.task_a 1704099600000 1704102300000 Hvalid Htask Ha Hstart Hend)
    as (_ & _ & _ & Happend).
  destruct Happend as (_ & Hok & _); [lia|].
  rewrite Hok; [|reflexivity].
  reflexivity.
Defined.

(** ** C6: when [completedAt] is written *)

(** C6 as worded fails: Alice completes her task at time 1000
    and sends the same update again at time 2000; the second request
    replaces the completion time set by the first. *)
Lemma C6_second_completion_overwrites :
  let body : doc := {[ "status" := VStr "completed" ]} in
  let st1 := (@update_task Sample.collaborators 1000 Sample.alice "t-a" body Sample.db).2 in
  let st2 := (@update_task Sample.collaborators 2000 Sample.alice "t-a" body st1).2 in
  tasks st1 !! "t-a" ≫= lookup "completedAt" = Some (VDate 1000) /\
  tasks st1 !! "t-a" ≫= lookup "status" = Some (VStr "completed") /\
  tasks st2 !! "t-a" ≫= lookup "completedAt" = Some (VDate 2000).
Proof. repeat split; reflexivity. Qed.

Section CompletedAt.
Context `{Collaborators}.

(** C6, amended.  Every successful update that sets status to
    "completed" assigns [completedAt] the time of that update, also
    when the task already has one; a successful update that does not
    set status to "completed" leaves it as it was; adding a comment
    or a time entry never changes it. *)
Theorem C6_completedAt_written_on_completion :
  (forall now c id body st task r st',
     tasks st !! id = Some task ->
     update_task now c id body st = (Success r, st') ->
     exists task',
       tasks st' !! id = Some task' /\
       (body !! "status" = Some (VStr "completed") ->
          task' !! "completedAt" = Some (VDate now)) /\
       (body !! "status" <> Some (VStr "completed") ->
          task' !! "completedAt" = task !! "completedAt")) /\
  (forall c id body st task r st',
     tasks st !! id = Some task ->
     add_comment c id body st = (r, st') ->
     exists task',
       tasks st' !! id = Some task' /\
       task' !! "completedAt" = task !! "completedAt") /\
  (forall c id body st task r st',
     tasks st !! id = Some task ->
     add_time_tracking c id body st = (r, st') ->
     exists task',
       tasks st' !! id = Some task' /\
       task' !! "completedAt" = task !! "completedAt").
Proof.
  split; [|split].
  - intros now c id body st task r st' Htask Hrun.
    apply update_task_success in Hrun
      as (task0 & a & Htask0 & Ha & Hok & Hval & -> & ->).
    assert (task0 = task) as -> by congruence.
    eexists. split; [apply lookup_insert_eq|].
    rewrite lookup_union, completion_lookup, collect_updates_lookup,
      completedAt_not_allowed.
    split; intros Hstatus.
    + apply (sets_completed_body (isAdminOrHR c)) in Hstatus. rewrite Hstatus.
      rewrite decide_False by discriminate. rewrite decide_True by reflexivity.
      by destruct (task !! "completedAt").
    + destruct (sets_completed _) eqn:Hset.
      { apply sets_completed_body in Hset. contradiction. }
      by destruct (task !! "completedAt").
  - intros c id body st task r st' Htask Hrun.
    destruct (add_comment_frame c id body st st' task r Htask Hrun)
      as (task' & Htask' & Hkeep).
    exists task'. split; [exact Htask'|]. by apply Hkeep.
  - intros c id body st task r st' Htask Hrun.
    destruct (add_time_tracking_frame c id body st st' task r Htask Hrun)
      as (task' & Htask' & Hkeep).
    exists task'. split; [exact Htask'|]. by apply Hkeep.
Qed.
End CompletedAt.

Lemma C6_completedAt_written_on_completion_witness :
  let body : doc := {[ "status" := VStr "completed" ]} in
  exists task',
    tasks (@update_task Sample.collaborators 1704186000000 Sample.bob "t-b" body Sample.db).2
    !! "t-b" = Some task' /\
    task' !! "completedAt" = Some (VDate 1704186000000).
Proof.
  intros body.
  destruct (@update_task Sample.collaborators 1704186000000 Sample.bob "t-b" body Sample.db)
    as [r st'] eqn:Hrun.
  assert (exists x, r = Success x) as [x ->].
  { apply (f_equal fst) in Hrun. cbn [fst] in Hrun. subst r. eexists. reflexivity. }
  destruct (proj1 (@C6_completedAt_written_on_completion Sample.collaborators)
              1704186000000 Sample.bob "t-b" body Sample.db Sample.task_b x st')
    as (task' & Htask' & Hset & _).
  - reflexivity.
  - exact Hrun.
  - exists task'. split; [exact Htask'|]. apply Hset. reflexivity.
Defined.

(** ** C7: the creator of a task *)

Section Creation.
Context `{Collaborators}.

Lemma new_task_ignores_assignedBy (c : caller) (body1 body2 : doc) :
  (forall k, k <> "assignedBy" -> body1 !! k = body2 !! k) ->
  new_task c body1 = new_task c body2.
Proof.
  intros Hsame. unfold new_task. f_equal. apply map_eq. intros k.
  destruct (decide (k = "assignedBy")) as [-> | Hk].
  - by rewrite !lookup_insert_eq.
  - rewrite !lookup_insert_ne by done.
    rewrite !map_lookup_filter, (Hsame k Hk). reflexivity.
Qed.

(** A reference to a user that does not exist is answered not-found,
    and nothing is stored. *)
Lemma create_task_unknown_assignee (c : caller) (new_id : string) (body : doc)
    (st : store) (a : string) :
  body !! "assignedTo" = Some (VStr a) ->
  users st !! a = None ->
  authorize ["admin"; "hr"] c = true ->
  create_valid body = true ->
  create_task c new_id body st = (NotFound, st).
Proof.
  intros Ha Hnone Hrole Hvalid. unfold create_task.
  by rewrite Hrole, Hvalid, Ha, Hnone.
Qed.

(** C7.  A task that is created carries the caller's id as
    [assignedBy] and is stored under the new id; and two creation
    requests whose bodies agree on every key other than [assignedBy]
    get the same answer and leave the same store behind. *)
Theorem C7_creator_is_caller (c : caller) (new_id : string) (st : store) :
  (forall body task st',
     create_task c new_id body st = (Success task, st') ->
     task !! "assignedBy" = Some (VStr (caller_id c)) /\
     tasks st' !! new_id = Some task) /\
  (forall body1 body2,
     (forall k, k <> "assignedBy" -> body1 !! k = body2 !! k) ->
     create_task c new_id body1 st = create_task c new_id body2 st).
Proof.
  split.
  - intros body task st'. unfold create_task.
    repeat case_match; intros Hrun; simplify_eq.
    split; [|apply lookup_insert_eq].
    unfold new_task. apply lookup_union_Some_l. apply lookup_insert_eq.
  - intros body1 body2 Hsame. unfold create_task, create_valid.
    rewrite (new_task_ignores_assignedBy c body1 body2 Hsame).
    rewrite !(Hsame "title"), !(Hsame "description"), !(Hsame "assignedTo"),
      !(Hsame "dueDate"), !(Hsame "priority"), !(Hsame "category") by discriminate.
    reflexivity.
Qed.
End Creation.

Lemma C7_creator_is_caller_witness :
  let body : doc := {[ "title" := VStr "Plan sprint"; "description" := VStr "Next two weeks";
                       "assignedTo" := VStr "u-bob";
                       "dueDate" := VStr "2024-02-01T00:00:00.000Z";
                       "priority" := VStr "low"; "category" := VStr "meeting" ]} in
  exists task st',
    @create_task Sample.collaborators Sample.hr "t-new"
      (<["assignedBy" := VStr "u-alice"]> body) Sample.db = (Success task, st') /\
    @create_task Sample.collaborators Sample.hr "t-new" body Sample.db = (Success task, st') /\
    task !! "assignedBy" = Some (VStr "u-hr").
Proof.
  intros body.
  destruct (@C7_creator_is_caller Sample.collaborators Sample.hr "t-new" Sample.db)
    as [Hcreator Hsame].
  destruct (@create_task Sample.collaborators Sample.hr "t-new" body Sample.db)
    as [r st'] eqn:Hrun.
  assert (exists task, r = Success task) as [task ->].
  { apply (f_equal fst) in Hrun. cbn [fst] in Hrun. subst r. eexists. reflexivity. }
  exists task, st'. split; [|split; [reflexivity|]].
  - rewrite <- Hrun. apply Hsame. intros k Hk. by rewrite lookup_insert_ne.
  - apply (Hcreator body task st' Hrun).
Defined.

(** ** C8: defaults and filters of a listing *)


Section ListDefaults.
Context `{Collaborators}.


End ListDefaults.


(** A page of 1.5 is no error and no page 1: the window starts at 5
    and page 1 is reported. *)
Example list_page_one_and_a_half :
  exists plan,
    @list_tasks Sample.collaborators Sample.admin
      {| Query.assignedTo := None; Query.status := None; Query.priority := None;
         Query.category := None; Query.search := None; Query.page := Some "1.5";
         Query.limit := None; Query.sortBy := None; Query.sortOrder := None |}
    = Success plan /\
    skip plan = JS.Int 5 /\ currentPage plan = JS.Int 1.
Proof. eexists. repeat split; vm_compute; reflexivity. Qed.

(** ** C9: the per-employee views *)

Lemma one_segment_is_a_task_id (x : string) :
  dispatch get_routes [x] = Some (GetTask, [x]).
Proof. reflexivity. Qed.

(** C9.  A GET request for [/by-employee] or [/employee-summary] goes
    to the handler of [/:id], registered before them, with the path
    segment as the task id, and is answered as a read of that task:
    not-found when no task has that id.  No GET request at all reaches
    the by-employee or the employee-summary handler, so neither view
    is ever produced. *)
Theorem C9_employee_views_are_shadowed :
  dispatch get_routes ["by-employee"] = Some (GetTask, ["by-employee"]) /\
  dispatch get_routes ["employee-summary"] = Some (GetTask, ["employee-summary"]) /\
  (forall path r params,
     dispatch get_routes path = Some (r, params) ->
     r <> ByEmployee /\ r <> EmployeeSummary) /\
  (forall c st,
     (tasks st !! "by-employee" = None -> get_task c "by-employee" st = NotFound) /\
     (tasks st !! "employee-summary" = None ->
        get_task c "employee-summary" st = NotFound)) /\
  get_task Sample.admin "employee-summary" Sample.db = NotFound /\
  get_task Sample.admin "by-employee" Sample.db = NotFound.
Proof.
  split; [apply one_segment_is_a_task_id|]. split; [apply one_segment_is_a_task_id|].
  split; [|split; [|split; reflexivity]].
  - intros path r params.
    destruct path as [|x [|y [|z path]]].
    + intros [= <- <-]. split; discriminate.
    + rewrite one_segment_is_a_task_id. intros [= <- <-]. split; discriminate.
    + cbn [dispatch get_routes match_route fmap option_fmap option_map].
      repeat case_match; intros Heq; simplify_eq; split; discriminate.
    + cbn [dispatch get_routes match_route fmap option_fmap option_map].
      repeat case_match; intros Heq; simplify_eq.
  - intros c st. split; intros Hnone; unfold get_task; by rewrite Hnone.
Qed.

(** ** The scenarios of the specification, run on the sample store *)

(** Alice completes her pending task and also sends a progress of 40
    and a new priority: the task ends completed, at progress 100, with
    the completion time of the request, and keeps its priority. *)
Example scenario_employee_completes :
  let body : doc := {[ "status" := VStr "completed"; "progress" := VNum 40;
                       "priority" := VStr "urgent" ]} in
  let st' := (@update_task Sample.collaborators 1704102300000 Sample.alice "t-a" body
                Sample.db).2 in
  tasks st' !! "t-a" ≫= lookup "status" = Some (VStr "completed") /\
  tasks st' !! "t-a" ≫= lookup "progress" = Some (VNum 100) /\
  tasks st' !! "t-a" ≫= lookup "completedAt" = Some (VDate 1704102300000) /\
  tasks st' !! "t-a" ≫= lookup "priority" = Some (VStr "medium").
Proof. repeat split; reflexivity. Qed.

(** HR lists the tasks that are pending or overdue. *)
Example scenario_status_set :
  exists plan,
    @list_tasks Sample.collaborators Sample.hr
      {| Query.assignedTo := None; Query.status := Some "pending,overdue";
         Query.priority := None; Query.category := None; Query.search := None;
         Query.page := None; Query.limit := None; Query.sortBy := None;
         Query.sortOrder := None |} = Success plan /\
    q_status (find plan) = Some (StatusIn ["pending"; "overdue"]) /\
    q_assignedTo (find plan) = "u-hr".
Proof. eexists. repeat split; reflexivity. Qed.

(** A time entry whose end is not after its start leaves the list of
    entries as it is. *)
Example scenario_end_before_start :
  let body : doc := {[ "startTime" := VStr "2024-01-01T09:45:00.000Z";
                       "endTime" := VStr "2024-01-01T09:00:00.000Z" ]} in
  @add_time_tracking Sample.collaborators Sample.alice "t-a" body Sample.db
  = (ValidationFailed, Sample.db).
Proof. reflexivity. Qed.

(** Only the assignee tracks time: an admin is refused. *)
Example scenario_admin_cannot_track_time :
  let body : doc := {[ "startTime" := VStr "2024-01-01T09:00:00.000Z";
                       "endTime" := VStr "2024-01-01T09:45:00.000Z" ]} in
  @add_time_tracking Sample.collaborators Sample.admin "t-a" body Sample.db
  = (AccessDenied, Sample.db).
Proof. reflexivity. Qed.

(** * Further properties of the router *)

(** ** Reading one task *)



(** ** Who may comment and who may track time *)

Section AppendRules.
Context `{Collaborators}.

(** X2.  A comment is stored only for a caller who is admin or hr, the
    assignee or the creator of the task; what is stored is the old list
    of comments followed by one entry carrying the caller's id and the
    text sent, so earlier comments are never changed or dropped.  A
    caller outside those three groups is refused and the store stays
    as it was; a caller inside them whose comment the schema accepts
    is answered with the new list, which is then the stored one. *)
Theorem X2_comment_rule (c : caller) (id : string) (body : doc) (st : store) :
  (forall comments st',
     add_comment c id body st = (Success comments, st') ->
     exists task a b,
       tasks st !! id = Some task /\
       ref_string (task !! "assignedTo") = Some a /\
       ref_string (task !! "assignedBy") = Some b /\
       (role c = "admin" \/ role c = "hr" \/ a = caller_id c \/ b = caller_id c) /\
       comments = array_field "comments" task
                  ++ [VObj (("user", VStr (caller_id c)) :: prop "comment" (body !! "comment"))] /\
       exists task', tasks st' !! id = Some task' /\ array_field "comments" task' = comments) /\
  (forall task a b,
     tasks st !! id = Some task ->
     ref_string (task !! "assignedTo") = Some a ->
     ref_string (task !! "assignedBy") = Some b ->
     notEmpty (body !! "comment") = true ->
     ~ (role c = "admin" \/ role c = "hr") -> a <> caller_id c -> b <> caller_id c ->
     add_comment c id body st = (AccessDenied, st)) /\
  (forall task a b,
     tasks st !! id = Some task ->
     ref_string (task !! "assignedTo") = Some a ->
     ref_string (task !! "assignedBy") = Some b ->
     notEmpty (body !! "comment") = true ->
     (role c = "admin" \/ role c = "hr" \/ a = caller_id c \/ b = caller_id c) ->
     let comments :=
       array_field "comments" task
       ++ [VObj (("user", VStr (caller_id c)) :: prop "comment" (body !! "comment"))] in
     Task_validate (<["comments" := VArr comments]> task) = true ->
     add_comment c id body st
     = (Success comments,
        with_tasks st (<[id := <["comments" := VArr comments]> task]> (tasks st)))).
Proof.
  split; [|split].
  - intros comments st'. unfold add_comment, save.
    destruct (negb _); [discriminate|].
    destruct (tasks st !! id) as [task|] eqn:Htask; [|discriminate].
    destruct (ref_string (task !! "assignedTo")) as [a|] eqn:Ha; [|discriminate].
    destruct (ref_string (task !! "assignedBy")) as [b|] eqn:Hb; [|discriminate].
    fold (isAdminOrHR c).
    destruct (negb (isAdminOrHR c) && negb (a =? caller_id c)%string
              && negb (b =? caller_id c)%string) eqn:Hden; [discriminate|].
    destruct (Task_validate _); [|discriminate].
    intros [= <- <-]. exists task, a, b. repeat split; try assumption.
    + apply andb_false_iff in Hden as [Hden | Hden].
      * apply andb_false_iff in Hden as [Hden | Hden]; apply negb_false_iff in Hden.
        -- apply admin_or_hr in Hden. tauto.
        -- apply String.eqb_eq in Hden. tauto.
      * apply negb_false_iff, String.eqb_eq in Hden. tauto.
    + eexists. split; [apply lookup_insert_eq|].
      unfold array_field at 1. by rewrite lookup_insert_eq.
  - intros task a b Htask Ha Hb Hvalid Hrole Hna Hnb.
    unfold add_comment. rewrite Hvalid, Htask, Ha, Hb. fold (isAdminOrHR c).
    rewrite <- admin_or_hr in Hrole.
    apply String.eqb_neq in Hna, Hnb. rewrite Hna, Hnb.
    by destruct (isAdminOrHR c).
  - intros task a b Htask Ha Hb Hvalid Hmay comments Hschema.
    unfold add_comment, save. rewrite Hvalid, Htask, Ha, Hb. fold (isAdminOrHR c).
    cbn [negb]. fold comments. rewrite Hschema.
    destruct (isAdminOrHR c) eqn:Hrole; [reflexivity|].
    destruct (String.eqb_spec a (caller_id c)) as [|Hna]; [reflexivity|].
    destruct (String.eqb_spec b (caller_id c)) as [|Hnb]; [reflexivity|].
    exfalso. destruct Hmay as [Hr | [Hr | [Hr | Hr]]]; try contradiction.
    + assert (isAdminOrHR c = true) by (apply admin_or_hr; tauto). congruence.
    + assert (isAdminOrHR c = true) by (apply admin_or_hr; tauto). congruence.
Qed.

(** X3.  A time entry is stored only for the assignee of the task: the
    new list is the old one followed by one entry.  Every other caller,
    admin and hr included, is refused with the store left as it was. *)
Theorem X3_time_tracking_assignee_only (c : caller) (id : string) (body : doc)
    (st : store) :
  (forall entries st',
     add_time_tracking c id body st = (Success entries, st') ->
     exists task entry,
       tasks st !! id = Some task /\
       ref_string (task !! "assignedTo") = Some (caller_id c) /\
       entries = array_field "timeTracking" task ++ [entry] /\
       exists task', tasks st' !! id = Some task' /\
                     array_field "timeTracking" task' = entries) /\
  (forall task a,
     tasks st !! id = Some task ->
     ref_string (task !! "assignedTo") = Some a ->
     time_valid body = true ->
     a <> caller_id c ->
     add_time_tracking c id body st = (AccessDenied, st)).
Proof.
  split.
  - intros entries st'. unfold add_time_tracking, save.
    destruct (negb _); [discriminate|].
    destruct (tasks st !! id) as [task|] eqn:Htask; [|discriminate].
    destruct (ref_string (task !! "assignedTo")) as [a|] eqn:Ha; [|discriminate].
    destruct (String.eqb_spec a (caller_id c)) as [-> | Hne]; [|discriminate].
    cbn [negb].
    repeat case_match; intros Hrun; simplify_eq.
    all: eexists _, _; split; [reflexivity|]; split; [eassumption|];
      split; [reflexivity|].
    all: eexists; split; [apply lookup_insert_eq|].
    all: unfold array_field at 1; by rewrite lookup_insert_eq.
  - intros task a Htask Ha Hvalid Hne.
    unfold add_time_tracking. rewrite Hvalid, Htask, Ha.
    apply String.eqb_neq in Hne. by rewrite Hne.
Qed.
End AppendRules.

Lemma X2_comment_rule_witness :
  let body : doc := {[ "comment" := VStr "Looks good" ]} in
  @add_comment Sample.collaborators Sample.bob "t-a" body Sample.db
  = (AccessDenied, Sample.db).
Proof.
  intros body.
  apply (proj1 (proj2 (@X2_comment_rule Sample.collaborators Sample.bob "t-a" body
                         Sample.db))
           Sample.task_a "u-alice" "u-admin"); try reflexivity; try discriminate.
  intros [Hr | Hr]; discriminate.
Defined.

Lemma X3_time_tracking_assignee_only_witness :
  let body : doc := {[ "startTime" := VStr "2024-01-01T09:00:00.000Z";
                       "endTime" := VStr "2024-01-01T09:45:00.000Z" ]} in
  @add_time_tracking Sample.collaborators Sample.admin "t-a" body Sample.db
  = (AccessDenied, Sample.db).
Proof.
  intros body.
  apply (proj2 (@X3_time_tracking_assignee_only Sample.collaborators Sample.admin "t-a"
                  body Sample.db) Sample.task_a "u-alice");
    try reflexivity; discriminate.
Defined.

(** ** Requests that fail, and what a request leaves alone *)

Section Frames.
Context `{Collaborators}.

Lemma create_task_success (c : caller) (new_id : string) (body : doc) (st st' : store)
    (task : doc) :
  create_task c new_id body st = (Success task, st') ->
  exists a u,
    body !! "assignedTo" = Some (VStr a) /\ users st !! a = Some u /\
    create_valid body = true /\
    task = new_task c body /\ Task_validate task = true /\
    st' = {| tasks := <[new_id := task]> (tasks st);
             users := alter (push_assigned new_id) a (users st) |}.
Proof.
  unfold create_task. repeat case_match; intros Hrun; simplify_eq.
  eexists _, _. repeat split; try eassumption.
  by apply negb_false_iff.
Qed.

Lemma delete_task_success (c : caller) (id : string) (st st' : store) (x : unit) :
  delete_task c id st = (Success x, st') ->
  exists task,
    tasks st !! id = Some task /\
    st' = {| tasks := delete id (tasks st);
             users := match ref_string (task !! "assignedTo") with
                      | Some a => alter (pull_assigned id) a (users st)
                      | None => users st
                      end |}.
Proof.
  unfold delete_task. destruct (negb _); [discriminate|].
  destruct (tasks st !! id) as [task|]; [|discriminate].
  intros [= <-]. eauto.
Qed.

Lemma create_task_failure (c : caller) (new_id : string) (body : doc) (st st' : store)
    (r : outcome doc) :
  create_task c new_id body st = (r, st') -> (forall x, r <> Success x) -> st' = st.
Proof.
  unfold create_task.
  repeat case_match; intros Hrun Hfail; simplify_eq; try reflexivity.
  all: exfalso; by eapply Hfail.
Qed.

Lemma add_comment_failure (c : caller) (id : string) (body : doc) (st st' : store)
    (r : outcome (list value)) :
  add_comment c id body st = (r, st') -> (forall x, r <> Success x) -> st' = st.
Proof.
  unfold add_comment, save.
  repeat case_match; intros Hrun Hfail; simplify_eq; try reflexivity.
  all: exfalso; by eapply Hfail.
Qed.

Lemma add_time_tracking_failure (c : caller) (id : string) (body : doc) (st st' : store)
    (r : outcome (list value)) :
  add_time_tracking c id body st = (r, st') -> (forall x, r <> Success x) -> st' = st.
Proof.
  unfold add_time_tracking, save.
  repeat case_match; intros Hrun Hfail; simplify_eq; try reflexivity.
  all: exfalso; by eapply Hfail.
Qed.

Lemma delete_task_failure (c : caller) (id : string) (st st' : store) (r : outcome unit) :
  delete_task c id st = (r, st') -> (forall x, r <> Success x) -> st' = st.
Proof.
  unfold delete_task.
  repeat case_match; intros Hrun Hfail; simplify_eq; try reflexivity.
  all: exfalso; by eapply Hfail.
Qed.

Lemma update_task_others (now : Z) (c : caller) (id : string) (body : doc)
    (st st' : store) (r : outcome (option doc)) :
  update_task now c id body st = (r, st') ->
  users st' = users st /\
  forall id', id' <> id -> tasks st' !! id' = tasks st !! id'.
Proof.
  unfold update_task, findByIdAndUpdate.
  repeat case_match; intros Hrun; simplify_eq;
    (split; [reflexivity|]); intros id' Hne; try reflexivity.
  cbn [tasks with_tasks]. by rewrite lookup_insert_ne.
Qed.

Lemma add_comment_others (c : caller) (id : string) (body : doc) (st st' : store)
    (r : outcome (list value)) :
  add_comment c id body st = (r, st') ->
  users st' = users st /\
  forall id', id' <> id -> tasks st' !! id' = tasks st !! id'.
Proof.
  unfold add_comment, save.
  repeat case_match; intros Hrun; simplify_eq;
    (split; [reflexivity|]); intros id' Hne; try reflexivity.
  cbn [tasks with_tasks]. by rewrite lookup_insert_ne.
Qed.

Lemma add_time_tracking_others (c : caller) (id : string) (body : doc) (st st' : store)
    (r : outcome (list value)) :
  add_time_tracking c id body st = (r, st') ->
  users st' = users st /\
  forall id', id' <> id -> tasks st' !! id' = tasks st !! id'.
Proof.
  unfold add_time_tracking, save.
  repeat case_match; intros Hrun; simplify_eq;
    (split; [reflexivity|]); intros id' Hne; try reflexivity.
  all: cbn [tasks with_tasks]; by rewrite lookup_insert_ne.
Qed.

(** X4.  A request that changes tasks and is not answered with success
    leaves the store exactly as it was: creation, update, comment,
    time entry and deletion either succeed or change nothing. *)
Theorem X4_failed_requests_change_nothing :
  (forall c new_id body st r st',
     create_task c new_id body st = (r, st') -> (forall x, r <> Success x) -> st' = st) /\
  (forall now c id body st r st',
     update_task now c id body st = (r, st') -> (forall x, r <> Success x) -> st' = st) /\
  (forall c id body st r st',
     add_comment c id body st = (r, st') -> (forall x, r <> Success x) -> st' = st) /\
  (forall c id body st r st',
     add_time_tracking c id body st = (r, st') -> (forall x, r <> Success x) -> st' = st) /\
  (forall c id st r st',
     delete_task c id st = (r, st') -> (forall x, r <> Success x) -> st' = st).
Proof.
  split; [|split; [|split; [|split]]].
  - intros c new_id body st r st'. apply create_task_failure.
  - intros now c id body st r st' Hrun Hfail.
    exact (update_task_failure now c id body st st' r Hrun Hfail).
  - intros c id body st r st'. apply add_comment_failure.
  - intros c id body st r st'. apply add_time_tracking_failure.
  - intros c id st r st'. apply delete_task_failure.
Qed.

(** X5.  An update, a comment and a time entry touch one task only:
    every other task and every user record is as before.  In
    particular an update that gives the task to another assignee moves
    nothing in the users' [assignedTasks] lists. *)
Theorem X5_one_task_only :
  (forall now c id body st r st',
     update_task now c id body st = (r, st') ->
     users st' = users st /\
     forall id', id' <> id -> tasks st' !! id' = tasks st !! id') /\
  (forall c id body st r st',
     add_comment c id body st = (r, st') ->
     users st' = users st /\
     forall id', id' <> id -> tasks st' !! id' = tasks st !! id') /\
  (forall c id body st r st',
     add_time_tracking c id body st = (r, st') ->
     users st' = users st /\
     forall id', id' <> id -> tasks st' !! id' = tasks st !! id').
Proof.
  split; [|split].
  - intros now c id body st r st'. apply update_task_others.
  - intros c id body st r st'. apply add_comment_others.
  - intros c id body st r st'. apply add_time_tracking_others.
Qed.

Lemma new_task_lookup (c : caller) (body : doc) (k : string) :
  new_task c body !! k =
  if decide (k = "assignedBy") then Some (VStr (caller_id c))
  else if decide (k ∈ created_fields)
       then match body !! k with
            | Some v => Some v
            | None => Task_defaults !! k
            end
       else Task_defaults !! k.
Proof.
  unfold new_task. rewrite lookup_union.
  destruct (decide (k = "assignedBy")) as [-> | Hk].
  - rewrite lookup_insert_eq. by destruct (Task_defaults !! "assignedBy").
  - rewrite lookup_insert_ne by done. rewrite map_lookup_filter.
    destruct (decide (k ∈ created_fields)) as [Hin | Hout].
    + destruct (body !! k) as [v|]; cbn.
      * rewrite option_guard_True by done. cbn. by destruct (Task_defaults !! k).
      * by destruct (Task_defaults !! k).
    + destruct (body !! k) as [v|]; cbn.
      * rewrite option_guard_False by done. cbn. by destruct (Task_defaults !! k).
      * by destruct (Task_defaults !! k).
Qed.

(** X6.  Creating a task for an assignee id that names no user is
    answered not-found and nothing is stored, for any caller the role
    gate lets through and any body that passes validation. *)
Theorem X6_create_unknown_assignee (c : caller) (new_id : string) (body : doc)
    (st : store) (a : string) :
  authorize ["admin"; "hr"] c = true ->
  create_valid body = true ->
  body !! "assignedTo" = Some (VStr a) ->
  users st !! a = None ->
  create_task c new_id body st = (NotFound, st).
Proof.
  intros Hrole Hvalid Ha Hnone. unfold create_task.
  by rewrite Hrole, Hvalid, Ha, Hnone.
Qed.

(** X7.  Only the eleven destructured fields of the body reach a new
    task: two bodies that agree on them get the same answer and leave
    the same store, and in a created task every other field, the
    creator apart, holds the schema default.  A client can therefore
    not create a task with a status, progress, completion time,
    comments or time entries of its choice. *)
Theorem X7_create_reads_eleven_fields (c : caller) (new_id : string) (st : store) :
  (forall body1 body2,
     (forall k, k ∈ created_fields -> body1 !! k = body2 !! k) ->
     create_task c new_id body1 st = create_task c new_id body2 st) /\
  (forall body task st',
     create_task c new_id body st = (Success task, st') ->
     forall k, k ∉ created_fields -> k <> "assignedBy" ->
     task !! k = Task_defaults !! k).
Proof.
  split.
  - intros body1 body2 Hsame.
    assert (new_task c body1 = new_task c body2) as Hnew.
    { apply map_eq. intros k. rewrite !new_task_lookup.
      destruct (decide (k = "assignedBy")); [reflexivity|].
      destruct (decide (k ∈ created_fields)) as [Hin|]; [|reflexivity].
      by rewrite (Hsame k Hin). }
    unfold create_task, create_valid. rewrite Hnew.
    rewrite !(Hsame "title"), !(Hsame "description"), !(Hsame "assignedTo"),
      !(Hsame "dueDate"), !(Hsame "priority"), !(Hsame "category");
      try reflexivity; unfold created_fields; set_solver.
  - intros body task st' Hrun k Hout Hk.
    apply create_task_success in Hrun as (a & u & _ & _ & _ & -> & _).
    rewrite new_task_lookup. rewrite decide_False by done. by rewrite decide_False.
Qed.

(** X8.  A creation by a caller the role gate lets through, with a
    body that passes validation, an assignee that exists and a task
    the schema accepts, succeeds.  A creation that succeeds stores the
    new task under the new id, assigned to the user named in the body,
    appends the new id to that user's [assignedTasks] and changes no
    other task and no other user. *)
Theorem X8_create_effects (c : caller) (new_id : string) (body : doc) (st : store) :
  (forall a u,
     authorize ["admin"; "hr"] c = true ->
     create_valid body = true ->
     body !! "assignedTo" = Some (VStr a) ->
     users st !! a = Some u ->
     Task_validate (new_task c body) = true ->
     exists st', create_task c new_id body st = (Success (new_task c body), st')) /\
  (forall task st',
     create_task c new_id body st = (Success task, st') ->
     exists a u,
       body !! "assignedTo" = Some (VStr a) /\
       users st !! a = Some u /\
       ref_string (task !! "assignedTo") = Some a /\
       tasks st' !! new_id = Some task /\
       (forall id, id <> new_id -> tasks st' !! id = tasks st !! id) /\
       users st' !! a = Some (push_assigned new_id u) /\
       assignedTasks (push_assigned new_id u) = assignedTasks u ++ [new_id] /\
       (forall a', a' <> a -> users st' !! a' = users st !! a')).
Proof.
  split.
  - intros a u Hrole Hvalid Ha Hu Hschema. unfold create_task.
    rewrite Hrole, Hvalid, Ha, Hu, Hschema. cbn [negb]. eauto.
  - intros task st' Hrun.
    apply create_task_success in Hrun as (a & u & Ha & Hu & _ & -> & _ & ->).
    exists a, u. cbn [tasks users]. repeat split; try assumption.
    + rewrite new_task_lookup. rewrite decide_False by discriminate.
      rewrite decide_True by (unfold created_fields; set_solver). by rewrite Ha.
    + apply lookup_insert_eq.
    + intros id Hne. by rewrite lookup_insert_ne.
    + by rewrite lookup_alter_eq, Hu.
    + intros a' Hne. by rewrite lookup_alter_ne.
Qed.

Lemma pull_push_assigned (id : string) (u : user_doc) :
  id ∉ assignedTasks u -> pull_assigned id (push_assigned id u) = u.
Proof.
  intros Hfresh. destruct u as [n e r d ts]. unfold pull_assigned, push_assigned.
  cbn in *. f_equal. rewrite filter_app.
  rewrite filter_cons_False, filter_nil, app_nil_r by (intros Hne; by apply Hne).
  induction ts as [|t ts IH]; [reflexivity|].
  apply not_elem_of_cons in Hfresh as [Hne Hfresh].
  rewrite filter_cons_True by done. by rewrite IH.
Qed.

(** X9.  A deletion by an admin of a task that exists succeeds.  A
    deletion that succeeds removes the task, removes its id from the
    [assignedTasks] of the user it is assigned to, keeping the other
    ids of that list in their order, and changes no other task and no
    other user. *)
Theorem X9_delete_effects (c : caller) (id : string) (st : store) :
  (forall task,
     authorize ["admin"] c = true -> tasks st !! id = Some task ->
     exists st', delete_task c id st = (Success tt, st')) /\
  (forall x st',
     delete_task c id st = (Success x, st') ->
     exists task,
       tasks st !! id = Some task /\
       tasks st' !! id = None /\
       (forall id', id' <> id -> tasks st' !! id' = tasks st !! id') /\
       (forall a u, ref_string (task !! "assignedTo") = Some a -> users st !! a = Some u ->
          exists u', users st' !! a = Some u' /\
                     assignedTasks u' = filter (fun t => t <> id) (assignedTasks u) /\
                     (id ∉ assignedTasks u') /\
                     name u' = name u /\ email u' = email u /\
                     user_role u' = user_role u /\ department u' = department u) /\
       (forall a', ref_string (task !! "assignedTo") <> Some a' ->
          users st' !! a' = users st !! a')).
Proof.
  split.
  - intros task Hrole Htask. unfold delete_task. rewrite Hrole, Htask. cbn [negb]. eauto.
  - intros x st' Hrun. apply delete_task_success in Hrun as (task & Htask & ->).
    exists task. cbn [tasks users]. split; [exact Htask|].
    split; [apply lookup_delete_eq|]. split; [|split].
    + intros id' Hne. by rewrite lookup_delete_ne.
    + intros a u -> Hu. rewrite lookup_alter_eq, Hu. eexists. split; [reflexivity|].
      cbn [pull_assigned assignedTasks name email user_role department].
      repeat split. rewrite list_elem_of_filter. tauto.
    + intros a' Hne. destruct (ref_string (task !! "assignedTo")) as [a|]; [|reflexivity].
      rewrite lookup_alter_ne; [reflexivity | congruence].
Qed.

(** X10.  Creating a task under a fresh id and then deleting it gives
    back the store as it was before the creation. *)
Theorem X10_create_then_delete (c1 c2 : caller) (new_id : string) (body : doc)
    (st st1 : store) (task : doc) :
  tasks st !! new_id = None ->
  (forall a u, users st !! a = Some u -> new_id ∉ assignedTasks u) ->
  authorize ["admin"] c2 = true ->
  create_task c1 new_id body st = (Success task, st1) ->
  delete_task c2 new_id st1 = (Success tt, st).
Proof.
  intros Hfresh Hunlisted Hadmin Hrun.
  apply create_task_success in Hrun as (a & u & Ha & Hu & _ & -> & _ & ->).
  unfold delete_task. rewrite Hadmin. cbn [negb tasks users].
  rewrite lookup_insert_eq.
  assert (ref_string (new_task c1 body !! "assignedTo") = Some a) as ->.
  { rewrite new_task_lookup. rewrite decide_False by discriminate.
    rewrite decide_True by (unfold created_fields; set_solver). by rewrite Ha. }
  f_equal. destruct st as [ts us]. cbn [tasks users] in *. f_equal.
  - by apply delete_insert_id.
  - apply map_eq. intros a'. destruct (decide (a = a')) as [<- | Hne].
    + rewrite !lookup_alter_eq, Hu. cbn.
      by rewrite (pull_push_assigned new_id u (Hunlisted a u Hu)).
    + by rewrite !lookup_alter_ne.
Qed.

(** X11.  The back-references are kept up by creation, deletion,
    comments and time entries, and by every update that does not
    reassign the task (any update by a caller who is neither admin nor
    hr, and any update whose body has no [assignedTo]): if every task
    is listed by its assignee before such a request, so it is after. *)
Theorem X11_backrefs_kept (st : store) :
  backrefs st ->
  (forall c new_id body r st',
     create_task c new_id body st = (r, st') -> backrefs st') /\
  (forall c id r st', delete_task c id st = (r, st') -> backrefs st') /\
  (forall c id body r st', add_comment c id body st = (r, st') -> backrefs st') /\
  (forall c id body r st', add_time_tracking c id body st = (r, st') -> backrefs st') /\
  (forall now c id body r st',
     update_task now c id body st = (r, st') ->
     ~ (role c = "admin" \/ role c = "hr") \/ body !! "assignedTo" = None ->
     backrefs st').
Proof.
  intros Hinv. split; [|split; [|split; [|split]]].
  - intros c new_id body r st' Hrun.
    destruct r as [task| | | |].
    2-5: by rewrite (create_task_failure _ _ _ _ _ _ Hrun).
    apply create_task_success in Hrun as (a & u & Hb & Hu & _ & -> & _ & ->).
    assert (ref_string (new_task c body !! "assignedTo") = Some a) as Hta.
    { rewrite new_task_lookup. rewrite decide_False by discriminate.
      rewrite decide_True by (unfold created_fields; set_solver). by rewrite Hb. }
    intros id t a' u' Ht Ha' Hu'. cbn [tasks users] in Ht, Hu'.
    destruct (decide (a' = a)) as [-> | Hne].
    + rewrite lookup_alter_eq, Hu in Hu'. injection Hu' as <-.
      cbn [push_assigned assignedTasks].
      apply elem_of_app. destruct (decide (id = new_id)) as [-> | Hid].
      * right. apply list_elem_of_here.
      * left. rewrite lookup_insert_ne in Ht by done. eapply Hinv; eauto.
    + rewrite lookup_alter_ne in Hu' by done.
      destruct (decide (id = new_id)) as [-> | Hid].
      * rewrite lookup_insert_eq in Ht. injection Ht as <-. congruence.
      * rewrite lookup_insert_ne in Ht by done. eapply Hinv; eauto.
  - intros c id r st' Hrun.
    destruct r as [x| | | |].
    2-5: by rewrite (delete_task_failure _ _ _ _ _ Hrun).
    apply delete_task_success in Hrun as (task & Htask & ->).
    intros id' t a u' Ht Ha Hu'. cbn [tasks users] in *.
    destruct (decide (id' = id)) as [-> | Hid].
    { by rewrite lookup_delete_eq in Ht. }
    rewrite lookup_delete_ne in Ht by done.
    destruct (ref_string (task !! "assignedTo")) as [b|].
    + destruct (decide (b = a)) as [-> | Hne].
      * rewrite lookup_alter_eq in Hu'.
        destruct (users st !! a) as [u|] eqn:Hu; [|discriminate].
        injection Hu' as <-. cbn [pull_assigned assignedTasks].
        apply list_elem_of_filter. split; [done|]. eapply Hinv; eauto.
      * rewrite lookup_alter_ne in Hu' by done. eapply Hinv; eauto.
    + eapply Hinv; eauto.
  - intros c id body r st' Hrun.
    destruct (add_comment_others c id body st st' r Hrun) as [Hus Hts].
    intros id' t a u Ht Ha Hu. rewrite Hus in Hu.
    destruct (decide (id' = id)) as [-> | Hid].
    + destruct (tasks st !! id) as [task|] eqn:Htask.
      * destruct (add_comment_frame c id body st st' task r Htask Hrun)
          as (task' & Htask' & Hkeep).
        assert (t = task') as -> by congruence.
        rewrite (Hkeep "assignedTo") in Ha by discriminate. eapply Hinv; eauto.
      * revert Hrun. unfold add_comment. rewrite Htask.
        destruct (negb _); intros [= <- <-]; congruence.
    + rewrite (Hts id' Hid) in Ht. eapply Hinv; eauto.
  - intros c id body r st' Hrun.
    destruct (add_time_tracking_others c id body st st' r Hrun) as [Hus Hts].
    intros id' t a u Ht Ha Hu. rewrite Hus in Hu.
    destruct (decide (id' = id)) as [-> | Hid].
    + destruct (tasks st !! id) as [task|] eqn:Htask.
      * destruct (add_time_tracking_frame c id body st st' task r Htask Hrun)
          as (task' & Htask' & Hkeep).
        assert (t = task') as -> by congruence.
        rewrite (Hkeep "assignedTo") in Ha by discriminate. eapply Hinv; eauto.
      * revert Hrun. unfold add_time_tracking. rewrite Htask.
        destruct (negb _); intros [= <- <-]; congruence.
    + rewrite (Hts id' Hid) in Ht. eapply Hinv; eauto.
  - intros now c id body r st' Hrun Hsame.
    destruct (update_task_others now c id body st st' r Hrun) as [Hus Hts].
    intros id' t a u Ht Ha Hu. rewrite Hus in Hu.
    destruct (decide (id' = id)) as [-> | Hid].
    + destruct r as [x| | | |].
      2-5: rewrite (update_task_failure now c id body st st' _ Hrun) in Ht
        by discriminate; eapply Hinv; eauto.
      apply update_task_success in Hrun
        as (task & a0 & Htask & Ha0 & Hok & Hval & -> & ->).
      cbn [tasks with_tasks] in Ht. rewrite lookup_insert_eq in Ht.
      injection Ht as <-.
      assert ((completion now (collect_updates (allowedUpdates (isAdminOrHR c)) body)
               ∪ task) !! "assignedTo" = task !! "assignedTo") as Hkeep.
      { apply lookup_union_r. rewrite completion_lookup.
        assert (collect_updates (allowedUpdates (isAdminOrHR c)) body !! "assignedTo"
                = None) as Hnone.
        { rewrite collect_updates_lookup. destruct Hsame as [Hrole | ->].
          - rewrite <- admin_or_hr in Hrole.
            destruct (isAdminOrHR c); [congruence | reflexivity].
          - by destruct (JS.includes _ _). }
        destruct (sets_completed _); [|exact Hnone].
        rewrite decide_False by discriminate. rewrite decide_False by discriminate.
        exact Hnone. }
      rewrite Hkeep in Ha. eapply Hinv; eauto.
    + rewrite (Hts id' Hid) in Ht. eapply Hinv; eauto.
Qed.
End Frames.

Lemma sample_backrefs : backrefs Sample.db.
Proof.
  intros id task a u Htask Ha Hu. unfold Sample.db in Htask, Hu. cbn [tasks users] in *.
  apply lookup_insert_Some in Htask as [[<- <-] | [_ Htask]].
  - injection Ha as <-. injection Hu as <-. apply list_elem_of_here.
  - apply lookup_singleton_Some in Htask as [<- <-].
    injection Ha as <-. injection Hu as <-. apply list_elem_of_here.
Qed.

Lemma X6_create_unknown_assignee_witness :
  @create_task Sample.collaborators Sample.hr "t-new"
    (<["assignedTo" := VStr "u-nobody"]> sample_new_body) Sample.db
  = (NotFound, Sample.db).
Proof.
  apply (@X6_create_unknown_assignee Sample.collaborators Sample.hr "t-new" _ Sample.db
           "u-nobody"); reflexivity.
Defined.

Lemma X8_create_effects_witness :
  exists task st' u',
    @create_task Sample.collaborators Sample.hr "t-new" sample_new_body Sample.db
    = (Success task, st') /\
    users st' !! "u-bob" = Some u' /\
    assignedTasks u' = ["t-b"; "t-new"].
Proof.
  destruct (@create_task Sample.collaborators Sample.hr "t-new" sample_new_body Sample.db)
    as [r st'] eqn:Hrun.
  assert (exists task, r = Success task) as [task ->].
  { apply (f_equal fst) in Hrun. cbn [fst] in Hrun. subst r. eexists. reflexivity. }
  destruct (proj2 (@X8_create_effects Sample.collaborators Sample.hr "t-new"
                     sample_new_body Sample.db) task st' Hrun)
    as (a & u & Ha & Hu & _ & _ & _ & Hu' & Hlist & _).
  injection Ha as <-. injection Hu as <-.
  exists task, st', (push_assigned "t-new" (Sample.user "Bob" "employee" ["t-b"])).
  split; [reflexivity|]. split; [exact Hu' | exact Hlist].
Defined.

Lemma X9_delete_effects_witness :
  exists st' u',
    delete_task Sample.admin "t-a" Sample.db = (Success tt, st') /\
    tasks st' !! "t-a" = None /\
    users st' !! "u-alice" = Some u' /\ assignedTasks u' = [].
Proof.
  destruct (delete_task Sample.admin "t-a" Sample.db) as [r st'] eqn:Hrun.
  assert (r = Success tt) as ->.
  { apply (f_equal fst) in Hrun. cbn [fst] in Hrun. by subst r. }
  destruct (proj2 (X9_delete_effects Sample.admin "t-a" Sample.db) tt st' Hrun)
    as (task & Htask & Hgone & _ & Hassignee & _).
  injection Htask as <-.
  destruct (Hassignee "u-alice" (Sample.user "Alice" "employee" ["t-a"]) eq_refl eq_refl)
    as (u' & Hu' & Hlist & _).
  exists st', u'. split; [reflexivity|]. split; [exact Hgone|]. split; [exact Hu'|].
  rewrite Hlist. reflexivity.
Defined.

Lemma X10_create_then_delete_witness :
  exists task st1,
    @create_task Sample.collaborators Sample.hr "t-new" sample_new_body Sample.db
    = (Success task, st1) /\
    delete_task Sample.admin "t-new" st1 = (Success tt, Sample.db).
Proof.
  destruct (@create_task Sample.collaborators Sample.hr "t-new" sample_new_body Sample.db)
    as [r st1] eqn:Hrun.
  assert (exists task, r = Success task) as [task ->].
  { apply (f_equal fst) in Hrun. cbn [fst] in Hrun. subst r. eexists. reflexivity. }
  exists task, st1. split; [reflexivity|].
  apply (@X10_create_then_delete Sample.collaborators Sample.hr Sample.admin "t-new"
           sample_new_body Sample.db st1 task); try reflexivity; [|exact Hrun].
  intros a u Hu. unfold Sample.db in Hu. cbn [users] in Hu.
  assert (forall n r ts, "t-new" ∉ ts -> "t-new" ∉ assignedTasks (Sample.user n r ts))
    as Hlist by (intros n r ts Hts; exact Hts).
  assert (forall ts : list string,
            (forall t, t ∈ ts -> t = "t-a" \/ t = "t-b") -> "t-new" ∉ ts) as Hold.
  { intros ts Hts Hin. destruct (Hts _ Hin); discriminate. }
  repeat (apply lookup_insert_Some in Hu as [[_ <-] | [_ Hu]];
          [apply Hlist, Hold; intros t Ht;
           repeat (apply elem_of_cons in Ht as [-> | Ht]; [tauto|]); inversion Ht|]).
  apply lookup_singleton_Some in Hu as [_ <-].
  apply Hlist, Hold. intros t Ht.
  repeat (apply elem_of_cons in Ht as [-> | Ht]; [tauto|]). inversion Ht.
Defined.

Lemma X11_backrefs_kept_witness :
  backrefs (delete_task Sample.admin "t-b" Sample.db).2.
Proof.
  destruct (delete_task Sample.admin "t-b" Sample.db) as [r st'] eqn:Hrun.
  exact (proj1 (proj2 (@X11_backrefs_kept Sample.collaborators Sample.db sample_backrefs))
           Sample.admin "t-b" r st' Hrun).
Defined.

(** The condition of X11 on updates is needed: when the admin gives
    Alice's task to Bob through an update, Bob's list does not get it. *)
Example reassigning_update_breaks_backrefs :
  let body : doc := {[ "assignedTo" := VStr "u-bob" ]} in
  let st' := (@update_task Sample.collaborators 1704102300000 Sample.admin "t-a" body
                Sample.db).2 in
  tasks st' !! "t-a" ≫= lookup "assignedTo" = Some (VStr "u-bob") /\
  assignedTasks <$> users st' !! "u-bob" = Some ["t-b"] /\
  assignedTasks <$> users st' !! "u-alice" = Some ["t-a"].
Proof. repeat split; reflexivity. Qed.

(** ** The settings page *)

(** X12.  The strength meter counts four criteria: eight code units or
    more, a lower-case and an upper-case letter, a digit, a character
    that is neither.  The percentage is 25 for each criterion met.  A
    password that meets none is labelled "Weak"; a password that meets
    all four falls off the end of the four labels and is labelled
    "Very Weak", in the red text colour, at 100 percent over a green
    bar.  "Very Weak" is given to no other password. *)
Theorem X12_password_strength (password : string) :
  let r := Settings.getPasswordStrength password in
  let long := (8 <=? Settings.utf16_length password)%nat in
  let cased := Settings.test Settings.lower_case password
               && Settings.test Settings.upper_case password in
  let digits := Settings.test Settings.digit password in
  let other := Settings.test Settings.special password in
  let met := (Nat.b2n long + Nat.b2n cased + Nat.b2n digits + Nat.b2n other)%nat in
  Settings.percentage r = (25 * met)%nat /\
  Settings.level r = nth met ["Weak"; "Fair"; "Good"; "Strong"] "Very Weak" /\
  (Settings.level r = "Very Weak" <-> long && cased && digits && other = true) /\
  (Settings.level r = "Weak" <-> long || cased || digits || other = false) /\
  (Settings.level r = "Very Weak" ->
     Settings.color r = "text-red-500" /\ Settings.percentage r = 100%nat /\
     Settings.bar r = "bg-green-500").
Proof.
  intros r long cased digits other met.
  subst r met. unfold Settings.bar, Settings.getPasswordStrength.
  fold long. fold cased. fold digits. fold other.
  destruct long, cased, digits, other; cbn;
    (split; [reflexivity|]); (split; [reflexivity|]);
    (split; [split; (discriminate || reflexivity)|]);
    (split; [split; (discriminate || reflexivity)|]);
    (discriminate || (intros _; repeat split; reflexivity)).
Qed.

Example strongest_password_is_very_weak :
  Settings.getPasswordStrength "Tr0ub4dor&3"
  = {| Settings.level := "Very Weak"; Settings.color := "text-red-500";
       Settings.percentage := 100 |}.
Proof. reflexivity. Qed.

Example short_lower_case_password_is_weak :
  Settings.getPasswordStrength "abc"
  = {| Settings.level := "Weak"; Settings.color := "text-red-500";
       Settings.percentage := 0 |}.
Proof. reflexivity. Qed.

Lemma very_weak_is_long (password : string) :
  Settings.level (Settings.getPasswordStrength password) = "Very Weak" ->
  (8 <= Settings.utf16_length password)%nat.
Proof.
  unfold Settings.getPasswordStrength.
  destruct (Nat.leb_spec 8 (Settings.utf16_length password)) as [Hlong | Hshort];
    [done|].
  destruct (Settings.test Settings.lower_case password
            && Settings.test Settings.upper_case password),
    (Settings.test Settings.digit password),
    (Settings.test Settings.special password); cbn; discriminate.
Qed.

(** X13.  The password form sends a new password exactly when it
    equals its confirmation and has six code units or more, and sends
    it as typed, together with the current password.  The meter does
    not enter: a password it labels "Weak" at 0 percent is sent, and
    every password that meets all four criteria of the meter is sent
    once confirmed. *)
Theorem X13_password_form :
  (forall d current new,
     Settings.handlePasswordUpdate d = Settings.Sent current new <->
     Settings.newPassword d = Settings.confirmPassword d /\
     (6 <= Settings.utf16_length (Settings.newPassword d))%nat /\
     current = Settings.currentPassword d /\ new = Settings.newPassword d) /\
  (forall d,
     Settings.level (Settings.getPasswordStrength (Settings.newPassword d)) = "Very Weak" ->
     Settings.newPassword d = Settings.confirmPassword d ->
     Settings.handlePasswordUpdate d
     = Settings.Sent (Settings.currentPassword d) (Settings.newPassword d)) /\
  (let d := {| Settings.currentPassword := "old"; Settings.newPassword := "aaaaaa";
               Settings.confirmPassword := "aaaaaa" |} in
   Settings.level (Settings.getPasswordStrength (Settings.newPassword d)) = "Weak" /\
   Settings.percentage (Settings.getPasswordStrength (Settings.newPassword d)) = 0%nat /\
   Settings.handlePasswordUpdate d = Settings.Sent "old" "aaaaaa").
Proof.
  assert (forall d,
            Settings.newPassword d = Settings.confirmPassword d ->
            (6 <= Settings.utf16_length (Settings.newPassword d))%nat ->
            Settings.handlePasswordUpdate d
            = Settings.Sent (Settings.currentPassword d) (Settings.newPassword d)) as Hsent.
  { intros d Hsame Hlen. unfold Settings.handlePasswordUpdate.
    rewrite <- Hsame, String.eqb_refl. cbn [negb].
    destruct (Nat.ltb_spec (Settings.utf16_length (Settings.newPassword d)) 6); [lia | done]. }
  split; [|split].
  - intros d current new. split.
    + unfold Settings.handlePasswordUpdate.
      destruct (String.eqb_spec (Settings.newPassword d) (Settings.confirmPassword d))
        as [Hsame | Hdiff]; cbn [negb]; [|discriminate].
      destruct (Nat.ltb_spec (Settings.utf16_length (Settings.newPassword d)) 6);
        [discriminate|].
      intros [= <- <-]. done.
    + intros (Hsame & Hlen & -> & ->). by apply Hsent.
  - intros d Hbest Hsame. apply Hsent; [exact Hsame|].
    apply very_weak_is_long in Hbest. lia.
  - repeat split; reflexivity.
Qed.

(** ** The theme provider *)

(** X14.  Toggling the theme flips [darkMode], puts the class of the
    document in step with it and saves it; when the page is loaded
    again the mount effect brings back exactly the toggled state,
    whatever class the page starts with.  Toggling twice brings back
    the mode.  With nothing saved, or with the empty string saved,
    mounting changes nothing; a saved value other than "true" gives
    the light theme. *)
Theorem X14_theme_survives_reload (st : Theme.state) (page_class : bool) :
  let st' := Theme.toggleDarkMode st in
  Theme.darkMode st' = negb (Theme.darkMode st) /\
  Theme.dark_class st' = Theme.darkMode st' /\
  Theme.saved st' = Some (Theme.toString (Theme.darkMode st')) /\
  Theme.mount (Theme.reload page_class st') = st' /\
  Theme.darkMode (Theme.toggleDarkMode st') = Theme.darkMode st /\
  ((Theme.saved st = None \/ Theme.saved st = Some "") -> Theme.mount st = st) /\
  (forall s, Theme.saved st = Some s -> s <> "" -> s <> "true" ->
     Theme.darkMode (Theme.mount st) = false /\ Theme.dark_class (Theme.mount st) = false).
Proof.
  destruct st as [mode saved cls]. cbn.
  split; [reflexivity|]. split; [reflexivity|]. split; [reflexivity|].
  split; [by destruct mode|]. split; [by destruct mode|]. split.
  - intros [-> | ->]; reflexivity.
  - intros s -> Hne Hnt. unfold Theme.mount. cbn.
    destruct s as [|a s]; [done|].
    destruct (String.eqb_spec (String a s) "true") as [Heq|_]; [contradiction|].
    by split.
Qed.

Example theme_saved_in_capitals_is_light :
  Theme.mount {| Theme.darkMode := false; Theme.saved := Some "True";
                 Theme.dark_class := true |}
  = {| Theme.darkMode := false; Theme.saved := Some "True"; Theme.dark_class := false |}.
Proof. reflexivity. Qed.
